(** * AutoMV_UI: pipeline orchestration and source patcher

    A shallow embedding of [app.py] and [patch_byteplus.py].

    Python [str] values are sequences of Unicode code points; they are
    modelled as [list N].  Dictionaries are [gmap]s, the file system is a
    finite map from paths to nodes (a regular file with its content, or a
    directory), and code that yields, raises or touches the file system
    runs in a small monad of state, exceptions and a trace of the events
    that can be seen from outside. *)

From Stdlib Require Import ZArith NArith Lia Ascii String DecimalString.
From stdpp Require Import gmap strings list.

Local Open Scope N_scope.

(** * Part I: the programs *)

(** ** Python strings *)

Abbreviation pystr := (list N).

(** A string literal of the source, as code points. *)
Definition py (s : string) : pystr :=
  N_of_ascii <$> list_ascii_of_string s.

Definition nl : pystr := [10].
Definition dq : pystr := [34].

Definition in_range (lo hi c : N) : bool := (lo <=? c) && (c <=? hi).

(** [str(n)] for an [int]. *)
Definition str_of_int (z : Z) : pystr :=
  py (NilZero.string_of_int (Z.to_int z)).

(** [sep.join(parts)] *)
Fixpoint join (sep : pystr) (parts : list pystr) : pystr :=
  match parts with
  | [] => []
  | [p] => p
  | p :: rest => p ++ sep ++ join sep rest
  end.

(** [s.startswith(p)] *)
Fixpoint startswith (p s : pystr) : bool :=
  match p, s with
  | [], _ => true
  | a :: p', b :: s' => (a =? b) && startswith p' s'
  | _ :: _, [] => false
  end.

(** [sub in s] *)
Fixpoint contains (sub s : pystr) : bool :=
  startswith sub s ||
  match s with
  | [] => false
  | _ :: s' => contains sub s'
  end.

(** [s.replace(old, new, 1)] *)
Fixpoint replace_first (old new s : pystr) : pystr :=
  if startswith old s then new ++ drop (length old) s
  else match s with
       | [] => []
       | c :: s' => c :: replace_first old new s'
       end.

(** [x or default] for an optional string: [None] and the empty string are
    falsy. *)
Definition py_or (x : option pystr) (default : pystr) : pystr :=
  match x with
  | Some (c :: s) => c :: s
  | _ => default
  end.

Definition truthy (x : option pystr) : bool :=
  match x with
  | Some (_ :: _) => true
  | _ => false
  end.

Fixpoint skip_while (p : N → bool) (s : pystr) : pystr :=
  match s with
  | c :: r => if p c then skip_while p r else s
  | [] => []
  end.

(** [\s] on [str]: the Unicode white space characters. *)
Definition is_space (c : N) : bool :=
  in_range 9 13 c || in_range 28 32 c || (c =? 133) || (c =? 160) ||
  (c =? 5760) || in_range 8192 8202 c || (c =? 8232) || (c =? 8233) ||
  (c =? 8239) || (c =? 8287) || (c =? 12288).

(** [s.strip()] *)
Definition strip (s : pystr) : pystr :=
  reverse (skip_while is_space (reverse (skip_while is_space s))).

(** [s.lower()] on the ASCII letters.  No other code point lowers to one of
    the letters of the extensions the source compares with, so those tests
    agree with the source on every string. *)
Definition lower (s : pystr) : pystr :=
  (λ c, if in_range 65 90 c then c + 32 else c) <$> s.

Definition endswith (suffix s : pystr) : bool :=
  startswith (reverse suffix) (reverse s).

(** ** Regular expressions of the source

    The three patterns of the source are sequences of literals and of
    starred or plussed character classes, and every class is followed by a
    literal that starts with a character outside the class.  Greedy matching
    of such a pattern never backtracks into a class, so a matcher is a
    function from the text at the match start to the text after the match. *)

Definition matcher := pystr → option pystr.

Definition m_lit (lit : pystr) : matcher :=
  λ s, if startswith lit s then Some (drop (length lit) s) else None.

Definition m_star (p : N → bool) : matcher :=
  λ s, Some (skip_while p s).

Definition m_plus (p : N → bool) : matcher :=
  λ s, match s with
       | c :: r => if p c then Some (skip_while p r) else None
       | [] => None
       end.

Definition m_seq (m1 m2 : matcher) : matcher :=
  λ s, match m1 s with Some r => m2 r | None => None end.

(** [re.sub(pattern, repl, s)] for a pattern that matches no empty string:
    every leftmost non-overlapping match is replaced.  [skip] counts the
    characters of the current match still to be dropped. *)
Fixpoint re_sub_from (m : matcher) (repl : pystr) (skip : nat) (s : pystr) : pystr :=
  match s with
  | [] => []
  | c :: r =>
    match skip with
    | S k => re_sub_from m repl k r
    | O =>
      match m s with
      | Some rest => repl ++ re_sub_from m repl (length r - length rest) r
      | None => c :: re_sub_from m repl 0 r
      end
    end
  end.

Definition re_sub (m : matcher) (repl s : pystr) : pystr := re_sub_from m repl 0 s.

Definition not_char (q : N) (c : N) : bool := negb (c =? q).

(** ** Paths ([os.path] on a POSIX host) *)

Definition path_join (a b : pystr) : pystr :=
  if startswith (py "/") b then b
  else match a with
       | [] => b
       | _ => if bool_decide (last a = Some 47) then a ++ b else a ++ py "/" ++ b
       end.

(** The text after the last occurrence of [c], if [c] occurs. *)
Fixpoint after_last (c : N) (s : pystr) : option pystr :=
  match s with
  | [] => None
  | x :: r =>
    match after_last c r with
    | Some t => Some t
    | None => if x =? c then Some r else None
    end
  end.

Definition basename (p : pystr) : pystr := default p (after_last 47 p).

(** [os.path.splitext(p)[1]]: from the last dot of the last component,
    unless only dots precede it there. *)
Definition splitext_ext (p : pystr) : pystr :=
  let b := basename p in
  match after_last 46 b with
  | None => []
  | Some e =>
    let stem := take (length b - length e - 1) b in
    if forallb (λ c, c =? 46) stem then [] else 46 :: e
  end.

(** The proper ancestors of a path: its prefixes that end before a slash. *)
Fixpoint ancestors_from (pre s : pystr) : list pystr :=
  match s with
  | [] => []
  | c :: r =>
    (if (c =? 47) && negb (bool_decide (pre = [])) then [pre] else [])
    ++ ancestors_from (pre ++ [c]) r
  end.

Definition ancestors (p : pystr) : list pystr := ancestors_from [] p.

(** ** Text files

    A file is kept as the characters of its decoded content, before newline
    translation (both sources use strict codecs, which round-trip).
    [open(p, "r")] reads with universal newlines: [\r\n] and [\r] become
    [\n].  [open(p, "w")] writes [\n] as [os.linesep]. *)

Fixpoint read_newlines (b : pystr) : pystr :=
  match b with
  | [] => []
  | c :: r =>
    if c =? 13 then
      10 :: match r with
            | d :: r' => if d =? 10 then read_newlines r' else read_newlines r
            | [] => []
            end
    else c :: read_newlines r
  end.

Definition write_newlines (linesep : pystr) (s : pystr) : pystr :=
  mjoin ((λ c, if c =? 10 then linesep else [c]) <$> s).

(** ** The host: file system, settings file, platform *)

Inductive node :=
  | File (content : pystr)
  | Dir.

Record world := World {
  here : pystr;                        (* directory of the running script *)
  linesep : pystr;                     (* os.linesep *)
  environ : gmap pystr pystr;          (* os.environ *)
  nodes : gmap pystr node;             (* the file system *)
  dotenv : option (gmap pystr pystr);  (* the bindings of AutoMV_repo/.env *)
}.

Definition set_nodes (f : gmap pystr node → gmap pystr node) (w : world) : world :=
  World (here w) (linesep w) (environ w) (f (nodes w)) (dotenv w).

Definition set_dotenv (d : option (gmap pystr pystr)) (w : world) : world :=
  World (here w) (linesep w) (environ w) (nodes w) d.

Inductive exn :=
  | FileNotFoundError
  | IsADirectoryError
  | NotADirectoryError
  | FileExistsError
  | SameFileError
  | GeneratorExit
  | SystemExit (code : Z)
  | ChildError (what : pystr).

Inductive result (A : Type) :=
  | Ok (a : A)
  | Raise (e : exn).
Arguments Ok {A} a.
Arguments Raise {A} e.

(** What a run does, in order. *)
Inductive event :=
  | EvYield (snapshot : pystr)
  | EvPrint (line : pystr)
  | EvMakedirs (path : pystr)
  | EvCopy (src dst : pystr)
  | EvWrite (path text : pystr)
  | EvRemove (path : pystr)
  | EvSpawn (argv : list pystr) (cwd : pystr) (env : gmap pystr pystr).

(** [st_budget]: how many values the consumer of a generator still takes
    before it closes the generator; [None] when it iterates to the end. *)
Record state := State {
  st_world : world;
  st_budget : option nat;
}.

(** A computation returns or raises, leaves a state, and has done a
    sequence of events. *)
Definition M (A : Type) : Type := state → result A * state * list event.

#[global] Instance M_ret : MRet M := λ A a s, (Ok a, s, []).
#[global] Instance M_bind : MBind M := λ A B f m s,
  match m s with
  | (Ok a, s1, t1) => let '(r, s2, t2) := f a s1 in (r, s2, t1 ++ t2)
  | (Raise e, s1, t1) => (Raise e, s1, t1)
  end.

Definition raise {A} (e : exn) : M A := λ s, (Raise e, s, []).

Definition get_world : M world := λ s, (Ok (st_world s), s, []).

Definition modify_world (f : world → world) : M unit :=
  λ s, (Ok (), State (f (st_world s)) (st_budget s), []).

Definition emit (e : event) : M unit := λ s, (Ok (), s, [e]).

(** [try: body finally: handler] *)
Definition try_finally {A} (body : M A) (handler : M unit) : M A := λ s,
  let '(r, s1, t1) := body s in
  match handler s1 with
  | (Ok _, s2, t2) => (r, s2, t1 ++ t2)
  | (Raise e, s2, t2) => (Raise e, s2, t1 ++ t2)
  end.

(** [yield x]: the value goes to the consumer; a consumer that closes the
    generator after this value makes the [yield] raise [GeneratorExit]. *)
Definition yield (x : pystr) : M unit := λ s,
  match st_budget s with
  | None => (Ok (), s, [EvYield x])
  | Some (S (S n)) => (Ok (), State (st_world s) (Some (S n)), [EvYield x])
  | Some _ => (Raise GeneratorExit, State (st_world s) (Some 0%nat), [EvYield x])
  end.

Definition print (line : pystr) : M unit := emit (EvPrint line).

(** A run from the start: a consumer that closes the generator before
    taking a value never starts its body. *)
Definition run {A} (m : M A) (w : world) (budget : option nat)
    : result unit * state * list event :=
  match budget with
  | Some O => (Ok (), State w budget, [])
  | _ => let '(r, s, t) := m (State w budget) in
         (match r with Ok _ => Ok () | Raise e => Raise e end, s, t)
  end.

Definition start (w : world) : state := State w None.

(** ** Calls on the file system *)

(** [os.path.exists(p)] *)
Definition path_exists (p : pystr) : M bool :=
  w ← get_world; mret (bool_decide (is_Some (nodes w !! p))).

(** [with open(p, "r") as f: f.read()] *)
Definition read_text (p : pystr) : M pystr :=
  w ← get_world;
  match nodes w !! p with
  | Some (File b) => mret (read_newlines b)
  | Some Dir => raise IsADirectoryError
  | None => raise FileNotFoundError
  end.

(** [with open(p, "w") as f: f.write(text)] *)
Definition write_text (p text : pystr) : M unit :=
  w ← get_world;
  match nodes w !! p with
  | Some Dir => raise IsADirectoryError
  | _ =>
    emit (EvWrite p text);;
    modify_world (set_nodes (insert p (File (write_newlines (linesep w) text))))
  end.

(** [os.makedirs(p, exist_ok=True)] *)
Definition makedirs (p : pystr) : M unit :=
  emit (EvMakedirs p);;
  w ← get_world;
  match nodes w !! p with
  | Some (File _) => raise FileExistsError
  | Some Dir => mret ()
  | None =>
    if existsb (λ a, match nodes w !! a with Some (File _) => true | _ => false end)
         (ancestors p)
    then raise NotADirectoryError
    else modify_world (set_nodes (λ m, foldr (λ d, insert d Dir) m (ancestors p ++ [p])))
  end.

(** [shutil.copy2(src, dst)] (content only) *)
Definition copy2 (src dst : pystr) : M unit :=
  w ← get_world;
  let target :=
    match nodes w !! dst with
    | Some Dir => path_join dst (basename src)
    | _ => dst
    end in
  if bool_decide (target = src) then raise SameFileError
  else
    match nodes w !! src with
    | None => raise FileNotFoundError
    | Some Dir => raise IsADirectoryError
    | Some (File b) =>
      match nodes w !! target with
      | Some Dir => raise IsADirectoryError
      | _ => emit (EvCopy src target);;
             modify_world (set_nodes (insert target (File b)))
      end
    end.

(** [os.remove(p)] *)
Definition remove (p : pystr) : M unit :=
  w ← get_world;
  match nodes w !! p with
  | Some (File _) => emit (EvRemove p);; modify_world (set_nodes (delete p))
  | Some Dir => raise IsADirectoryError
  | None => raise FileNotFoundError
  end.

(** ** patch_byteplus.py *)

Definition REPO_DIR (w : world) : pystr := path_join (here w) (py "AutoMV_repo").

(** The loop over [replacements] of [patch_file]. *)
Fixpoint apply_replacements (filepath : pystr) (replacements : list (pystr * pystr))
    (content : pystr) : M pystr :=
  match replacements with
  | [] => mret content
  | (old, new) :: rest =>
    if negb (contains old content) then
      print (py "  [WARN] Pattern not found in " ++ filepath ++ py ": "
             ++ take 60 old ++ py "...");;
      apply_replacements filepath rest content
    else apply_replacements filepath rest (replace_first old new content)
  end.

Definition patch_file (filepath : pystr) (replacements : list (pystr * pystr))
    (marker : pystr) : M bool :=
  w ← get_world;
  let full_path := path_join (REPO_DIR w) filepath in
  found ← path_exists full_path;
  if negb found then
    print (py "  [SKIP] " ++ filepath ++ py " not found");;
    mret false
  else
    content ← read_text full_path;
    if negb (bool_decide (marker = [])) && contains marker content then
      print (py "  [OK] " ++ filepath ++ py " already patched");;
      mret true
    else
      let original := content in
      content ← apply_replacements filepath replacements content;
      if bool_decide (content = original) then
        print (py "  [OK] " ++ filepath ++ py " no changes needed");;
        mret true
      else
        write_text full_path content;;
        print (py "  [PATCHED] " ++ filepath);;
        mret true.

Definition default_marker : pystr := py "byteplussdkarkruntime".

Definition config_replacements : list (pystr * pystr) :=
  [
    (py "    music_name = " ++ dq ++ py "1" ++ dq,
     py "    music_name = " ++ dq ++ py "1" ++ dq ++ nl ++ nl ++
     py "    # BytePlus (international) vs Volcengine (China) configuration" ++ nl ++
     py "    ARK_PROVIDER = os.getenv('ARK_PROVIDER', 'byteplus')" ++ nl ++ nl ++
     py "    @classmethod" ++ nl ++
     py "    def get_ark_base_url(cls):" ++ nl ++
     py "        if cls.ARK_PROVIDER == 'byteplus':" ++ nl ++
     py "            return " ++ dq ++ py "https://ark.ap-southeast.bytepluses.com/api/v3" ++ dq ++ nl ++
     py "        return " ++ dq ++ py "https://ark.cn-beijing.volces.com/api/v3" ++ dq ++ nl ++ nl ++
     py "    @classmethod" ++ nl ++
     py "    def get_model_name(cls, model_short):" ++ nl ++
     py "        if cls.ARK_PROVIDER == 'byteplus':" ++ nl ++
     py "            return model_short" ++ nl ++
     py "        return f" ++ dq ++ py "doubao-{model_short}" ++ dq ++ nl ++ nl ++
     py "    MODEL_SEEDREAM = os.getenv('MODEL_SEEDREAM', 'seedream-4-0-250828')" ++ nl ++
     py "    MODEL_SEEDANCE = os.getenv('MODEL_SEEDANCE', 'seedance-1-0-pro-250528')" ++ nl ++
     py "    MODEL_SEED_LLM = os.getenv('MODEL_SEED_LLM', 'seed-1.6-250615')" ++ nl);
    (py "        if not cls.DOUBAO_API_KEY:" ++ nl ++
     py "            raise ValueError(" ++ dq ++ py "OPENAI_API_KEY not found in .env" ++ dq ++ py ")",
     py "        if not cls.DOUBAO_API_KEY:" ++ nl ++
     py "            raise ValueError(" ++ dq ++ py "DOUBAO_API_KEY not found in .env" ++ dq ++ py ")")
  ].

Definition patch_config : M bool :=
  w ← get_world;
  let filepath := py "config.py" in
  let full_path := path_join (REPO_DIR w) filepath in
  content ← read_text full_path;
  if contains (py "ARK_PROVIDER") content then
    print (py "  [OK] " ++ filepath ++ py " already patched");;
    mret true
  else patch_file filepath config_replacements default_marker.

Definition picture_replacements : list (pystr * pystr) :=
  [
    (py "from volcenginesdkarkruntime import Ark",
     py "try:" ++ nl ++
     py "    from byteplussdkarkruntime import Ark" ++ nl ++
     py "except ImportError:" ++ nl ++
     py "    from volcenginesdkarkruntime import Ark");
    (py "client_doubao = Ark(" ++ nl ++
     py "    api_key=Config.DOUBAO_API_KEY" ++ nl ++
     py ")",
     py "client_doubao = Ark(" ++ nl ++
     py "    api_key=Config.DOUBAO_API_KEY," ++ nl ++
     py "    base_url=Config.get_ark_base_url()," ++ nl ++
     py ")");
    (py "model=" ++ dq ++ py "doubao-seedream-4-0-250828" ++ dq ++ py ",",
     py "model=Config.get_model_name(Config.MODEL_SEEDREAM),");
    (py "model=" ++ dq ++ py "doubao-seed-1.6-250615" ++ dq ++ py ",",
     py "model=Config.get_model_name(Config.MODEL_SEED_LLM),")
  ].

Definition patch_picture : M bool :=
  patch_file (py "picture_generate/picture.py") picture_replacements default_marker.

Definition video_pipeline_replacements : list (pystr * pystr) :=
  [
    (py "from volcenginesdkarkruntime import Ark",
     py "try:" ++ nl ++
     py "    from byteplussdkarkruntime import Ark" ++ nl ++
     py "except ImportError:" ++ nl ++
     py "    from volcenginesdkarkruntime import Ark");
    (py "def __init__(self, api_key: str, base_url: str = " ++ dq ++ py "https://ark.cn-beijing.volces.com/api/v3" ++ dq ++ py "):" ++ nl ++
     py "        self.client = Ark(base_url=base_url, api_key=api_key)",
     py "def __init__(self, api_key: str, base_url: str = None):" ++ nl ++
     py "        if base_url is None:" ++ nl ++
     py "            base_url = Config.get_ark_base_url()" ++ nl ++
     py "        self.client = Ark(base_url=base_url, api_key=api_key)");
    (py "    model = " ++ dq ++ py "doubao-seedance-1-0-pro-250528" ++ dq,
     py "    model = config.get_model_name(config.MODEL_SEEDANCE)")
  ].

Definition patch_video_pipeline : M bool :=
  patch_file (py "video_generate/video_generate_pipeline.py")
    video_pipeline_replacements default_marker.

Definition call_gemini_replacements : list (pystr * pystr) :=
  [
    (py "base_url=" ++ dq ++ py "https://ark.cn-beijing.volces.com/api/v3" ++ dq,
     py "base_url=Config.get_ark_base_url()");
    (py "model=" ++ dq ++ py "doubao-seed-1.6-250615" ++ dq ++ py ",",
     py "model=Config.get_model_name(Config.MODEL_SEED_LLM),")
  ].

Definition patch_call_gemini : M bool :=
  patch_file (py "video_generate/call_gemini.py") call_gemini_replacements
    (py "get_ark_base_url").

(** The pattern of [patch_lip_sync]: two calls with one single-quoted
    argument each. *)
Definition set_ak_sk_pattern : matcher :=
  m_seq (m_lit (py "    visual_service.set_ak('"))
 (m_seq (m_plus (not_char 39))
 (m_seq (m_lit (py "')" ++ nl ++ py "    visual_service.set_sk('"))
 (m_seq (m_plus (not_char 39))
        (m_lit (py "')"))))).

Definition set_ak_sk_replacement : pystr :=
  py "    # Note: Jimeng lip-sync requires Volcengine (China) credentials." ++ nl ++
  py "    # This feature is NOT available via BytePlus (international)." ++ nl ++
  py "    visual_service.set_ak(config.HUOSHAN_ACCESS_KEY)" ++ nl ++
  py "    visual_service.set_sk(config.HUOSHAN_SECRET_KEY)".

Definition patch_lip_sync : M bool :=
  w ← get_world;
  let filepath := py "generate_lip_video/gen_lip_sycn_video_jimeng.py" in
  let full_path := path_join (REPO_DIR w) filepath in
  found ← path_exists full_path;
  if negb found then
    print (py "  [SKIP] " ++ filepath ++ py " not found");;
    mret false
  else
    content ← read_text full_path;
    if contains (py "config.HUOSHAN_ACCESS_KEY") content then
      print (py "  [OK] " ++ filepath ++ py " already patched");;
      mret true
    else
      let new_content := re_sub set_ak_sk_pattern set_ak_sk_replacement content in
      if bool_decide (new_content = content) then
        print (py "  [WARN] Could not find set_ak/set_sk pattern in " ++ filepath);;
        mret false
      else
        write_text full_path new_content;;
        print (py "  [PATCHED] " ++ filepath);;
        mret true.

Definition main : M unit :=
  print (py "Applying BytePlus patches to AutoMV repo...");;
  w ← get_world;
  found ← path_exists (REPO_DIR w);
  if negb found then
    print (py "ERROR: AutoMV repo not found at " ++ REPO_DIR w);;
    raise (SystemExit 1)
  else
    patch_config;;
    patch_picture;;
    patch_video_pipeline;;
    patch_call_gemini;;
    patch_lip_sync;;
    print (py "Done! BytePlus support patched successfully.").

(** The five targets, with the step that patches each and the marker that
    the step looks for. *)
Inductive target := Config | Picture | VideoPipeline | CallGemini | LipSync.

Definition target_file (t : target) : pystr :=
  match t with
  | Config => py "config.py"
  | Picture => py "picture_generate/picture.py"
  | VideoPipeline => py "video_generate/video_generate_pipeline.py"
  | CallGemini => py "video_generate/call_gemini.py"
  | LipSync => py "generate_lip_video/gen_lip_sycn_video_jimeng.py"
  end.

Definition target_marker (t : target) : pystr :=
  match t with
  | Config => py "ARK_PROVIDER"
  | Picture => default_marker
  | VideoPipeline => default_marker
  | CallGemini => py "get_ark_base_url"
  | LipSync => py "config.HUOSHAN_ACCESS_KEY"
  end.

Definition patch_step (t : target) : M bool :=
  match t with
  | Config => patch_config
  | Picture => patch_picture
  | VideoPipeline => patch_video_pipeline
  | CallGemini => patch_call_gemini
  | LipSync => patch_lip_sync
  end.

Definition target_path (w : world) (t : target) : pystr :=
  path_join (REPO_DIR w) (target_file t).

(** The line that a patch step prints when it finds its marker. *)
Definition already_patched_line (t : target) : pystr :=
  py "  [OK] " ++ target_file t ++ py " already patched".

(** The line that a patch step prints when its target is not there. *)
Definition skipped_line (t : target) : pystr :=
  py "  [SKIP] " ++ target_file t ++ py " not found".

(** ** app.py: settings *)

Definition AUTOMV_DIR (w : world) : pystr := path_join (here w) (py "AutoMV_repo").
Definition RESULT_DIR (w : world) : pystr := path_join (AUTOMV_DIR w) (py "result").

Definition API_KEYS : list (pystr * pystr) :=
  [ (py "GEMINI_API_KEY", py "Gemini API Key (Google)");
    (py "DOUBAO_API_KEY", py "Ark API Key (BytePlus or Volcengine)");
    (py "ALIYUN_OSS_ACCESS_KEY_ID", py "Aliyun OSS Access Key ID");
    (py "ALIYUN_OSS_ACCESS_KEY_SECRET", py "Aliyun OSS Access Key Secret");
    (py "ALIYUN_OSS_BUCKET_NAME", py "Aliyun OSS Bucket Name");
    (py "HUOSHAN_ACCESS_KEY", py "Huoshan Access Key (China only, for lip-sync)");
    (py "HUOSHAN_SECRET_KEY", py "Huoshan Secret Key (China only, for lip-sync)") ].

Definition MODEL_SETTINGS : list (pystr * pystr * pystr) :=
  [ (py "GPU_ID", py "GPU Device ID", py "0");
    (py "WHISPER_MODEL", py "Whisper Model", py "openai/whisper-large-v2");
    (py "QWEN_OMNI_MODEL", py "Qwen Omni Model", py "Qwen/Qwen2.5-Omni-7B");
    (py "MODEL_SEEDREAM", py "Seedream Model ID", py "seedream-4-0-250828");
    (py "MODEL_SEEDANCE", py "Seedance Model ID", py "seedance-1-0-pro-250528");
    (py "MODEL_SEED_LLM", py "Seed LLM Model ID", py "seed-1.6-250615") ].

(** The settings file [AutoMV_repo/.env] is kept as its bindings, apart from
    [nodes]: it is there when [dotenv] is [Some].  [dotenv_values] reads the
    bindings, [set_key] replaces or adds one and leaves the others as they
    are.  The values are taken as [dotenv_values] gives them back: free of
    references to variables, which it would expand, and of backslashes. *)
Definition load_env : M (gmap pystr pystr) :=
  w ← get_world; mret (default ∅ (dotenv w)).

Definition set_key (key value : pystr) : M unit :=
  modify_world (λ w, set_dotenv (Some (<[key := value]> (default ∅ (dotenv w)))) w).

(** [env.get(k)] as a condition: unset and empty are falsy. *)
Definition env_set (env : gmap pystr pystr) (k : pystr) : bool := truthy (env !! k).

(** [val and val.strip()] as a condition. *)
Definition supplied (val : option pystr) : bool :=
  match val with
  | Some v => negb (bool_decide (v = [])) && negb (bool_decide (strip v = []))
  | None => false
  end.

(** The loop of [save_env_settings] over [zip(all_keys, values)]. *)
Fixpoint save_values (kvs : list (pystr * option pystr)) : M unit :=
  match kvs with
  | [] => mret ()
  | (key, val) :: rest =>
    (if supplied val then set_key key (strip (default [] val)) else mret ());;
    save_values rest
  end.

Definition all_keys : list pystr :=
  (fst <$> API_KEYS) ++ ((λ x, x.1.1) <$> MODEL_SETTINGS).

Definition save_env_settings (provider : option pystr) (values : list (option pystr))
    : M pystr :=
  w ← get_world;
  (if bool_decide (dotenv w = None) then
     (* [open(ENV_PATH, "w")] needs the directory of the file *)
     match nodes w !! AUTOMV_DIR w with
     | Some Dir => modify_world (set_dotenv (Some ∅))
     | Some (File _) => raise NotADirectoryError
     | None => raise FileNotFoundError
     end
   else mret ());;
  set_key (py "ARK_PROVIDER")
    (if truthy provider then strip (default [] provider) else py "byteplus");;
  save_values (zip all_keys values);;
  env ← load_env;
  let configured := filter (λ kl, env_set env kl.1 = true) API_KEYS in
  let missing := snd <$> filter (λ kl, env_set env kl.1 = false) API_KEYS in
  let prov := default (py "byteplus") (env !! py "ARK_PROVIDER") in
  let status := py "Provider: " ++ prov ++ nl in
  let status := status ++ py "Configured: " ++ str_of_int (Z.of_nat (length configured))
                  ++ py "/" ++ str_of_int (Z.of_nat (length API_KEYS)) ++ py " API keys" in
  let status :=
    if negb (bool_decide (missing = [])) then
      status ++ nl ++ py "Missing: " ++ join (py ", ") missing
    else status ++ nl ++ py "All API keys are set." in
  let status :=
    if bool_decide (prov = py "byteplus") then
      status ++ nl ++ nl ++
      py "Note: Lip-sync (Jimeng) requires Volcengine (China). Set to 'None' if using BytePlus."
    else status in
  mret status.

Definition get_env_status : M pystr :=
  env ← load_env;
  let prov := default (py "byteplus") (env !! py "ARK_PROVIDER") in
  let lines :=
    (py "  Provider: " ++ prov) ::
    ((λ kl : pystr * pystr,
        if truthy (Some (default [] (env !! kl.1)))
        then py "  " ++ kl.2 ++ py ": set"
        else py "  " ++ kl.2 ++ py ": MISSING") <$> API_KEYS) in
  mret (join nl lines).

(** ** app.py: [sanitize_music_name] *)

(** The character class [a-zA-Z0-9_]. *)
Definition is_name_char (c : N) : bool :=
  in_range 97 122 c || in_range 65 90 c || in_range 48 57 c || (c =? 95).

(** [re.sub(r"[^a-zA-Z0-9_]", "_", name)]: every code point outside the
    class is a match of length one and becomes an underscore. *)
Definition sanitize_music_name (name : pystr) : pystr :=
  (λ c, if is_name_char c then c else 95) <$> name.

(** ** app.py: the pipeline *)

(** A child process, as the run sees it.  The child works on regular files:
    an operation [(p, Some c)] writes the file [p], [(p, None)] removes it,
    and neither touches a directory. *)
Definition file_op : Type := pystr * option pystr.

Record child := Child {
  spawn_error : option exn;                (* [Popen] itself raises *)
  output : list (list file_op * pystr);    (* work done before a line, the line *)
  read_error : option exn;                 (* reading the pipe raises at its end *)
  exit_ops : list file_op;                 (* work done after the last line *)
  returncode : Z;
}.

Definition child_op (op : file_op) (m : gmap pystr node) : gmap pystr node :=
  match m !! op.1 with
  | Some Dir => m
  | _ => match op.2 with
         | Some c => <[op.1 := File c]> m
         | None => delete op.1 m
         end
  end.

Definition child_ops (ops : list file_op) (m : gmap pystr node) : gmap pystr node :=
  foldl (λ m op, child_op op m) m ops.

Definition popen (argv : list pystr) (cwd : pystr) (env : gmap pystr pystr) (c : child)
    : M unit :=
  emit (EvSpawn argv cwd env);;
  match spawn_error c with
  | Some e => raise e
  | None => mret ()
  end.

(** [for line in proc.stdout: log += line; yield log] *)
Fixpoint stream (out : list (list file_op * pystr)) (log : pystr) : M pystr :=
  match out with
  | [] => mret log
  | (ops, line) :: rest =>
    modify_world (set_nodes (child_ops ops));;
    let log := log ++ line in
    yield log;;
    stream rest log
  end.

Definition stream_child (c : child) (log : pystr) : M pystr :=
  log ← stream (output c) log;
  match read_error c with
  | Some e => raise e
  | None => mret log
  end.

(** [proc.wait()], giving [proc.returncode] *)
Definition wait (c : child) : M Z :=
  modify_world (set_nodes (child_ops (exit_ops c)));;
  mret (returncode c).

Definition _build_gen_script (music_name lip_sync resolution : pystr) : pystr :=
  let lines :=
    [ py "from video_generate.video_generate_pipeline import full_video_gen";
      py "from config import Config" ] in
  let lines :=
    if bool_decide (lip_sync = py "Jimeng (fast)") then
      lines ++
      [ py "from generate_lip_video.gen_lip_sycn_video_jimeng import gen_lip_sync_video_jimeng";
        py "gen_lip_sync_video_jimeng(" ++ dq ++ music_name ++ dq ++ py ", config=Config)" ]
    else if bool_decide (lip_sync = py "Wan2.2 (slow, cheap)") then
      lines ++
      [ py "from generate_lip_video.gen_lip_sycn_video import gen_lip_sync_video";
        py "gen_lip_sync_video(" ++ dq ++ music_name ++ dq ++ py ")" ]
    else lines in
  let res := if bool_decide (resolution = py "480p") then py "480p" else py "720p" in
  let lines :=
    lines ++
    [ py "full_video_gen(" ++ dq ++ music_name ++ dq ++ py ", resolution=" ++ dq ++ res
      ++ dq ++ py ", config=Config)" ] in
  join nl lines ++ nl.

(** The pattern of [re.sub] on the configuration: the field name, white
    space, an equals sign, white space and a double-quoted value without
    quotes inside. *)
Definition music_name_pattern : matcher :=
  m_seq (m_lit (py "music_name"))
 (m_seq (m_star is_space)
 (m_seq (m_lit (py "="))
 (m_seq (m_star is_space)
 (m_seq (m_lit dq)
 (m_seq (m_star (not_char 34))
        (m_lit dq)))))).

Definition config_path (w : world) : pystr := path_join (AUTOMV_DIR w) (py "config.py").
Definition gen_script_path (w : world) : pystr := path_join (AUTOMV_DIR w) (py "_ui_generate.py").

Definition stage1_argv : list pystr := [py "python"; py "-m"; py "picture_generate.main"].
Definition stage2_argv : list pystr := [py "python"; py "_ui_generate.py"].

Definition stage1_failed_line (code : Z) : pystr :=
  nl ++ py "Stage 1 failed with exit code " ++ str_of_int code ++ nl.

Definition stage2_failed_line (code : Z) : pystr :=
  nl ++ py "Stage 2 failed with exit code " ++ str_of_int code ++ nl.

(** The body of the [try] statement. *)
Definition stages (stage1 stage2 : child) (run_env : gmap pystr pystr)
    (project_dir music_name lip_sync resolution log : pystr) : M unit :=
  w ← get_world;
  let log := log ++ py "--- Stage 1: Picture Generation ---" ++ nl in
  let log := log ++ py "Running SongFormer analysis + image generation..." ++ nl in
  yield log;;
  popen stage1_argv (AUTOMV_DIR w) run_env stage1;;
  log ← stream_child stage1 log;
  code ← wait stage1;
  if negb (bool_decide (code = 0%Z)) then
    let log := log ++ stage1_failed_line code in
    yield log
  else
    let log := log ++ nl ++ py "Stage 1 complete." ++ nl ++ nl in
    yield log;;
    let log := log ++ py "--- Stage 2: Video Generation ---" ++ nl in
    let gen_script := _build_gen_script music_name lip_sync resolution in
    write_text (gen_script_path w) gen_script;;
    let log := log ++ py "Generating video clips and assembling final MV..." ++ nl in
    yield log;;
    popen stage2_argv (AUTOMV_DIR w) run_env stage2;;
    log ← stream_child stage2 log;
    code ← wait stage2;
    if negb (bool_decide (code = 0%Z)) then
      let log := log ++ stage2_failed_line code in
      yield log
    else
      found ← path_exists (gen_script_path w);
      (if found : bool then remove (gen_script_path w) else mret ());;
      let final_video := path_join project_dir (py "mv_" ++ music_name ++ py ".mp4") in
      found ← path_exists final_video;
      let log :=
        if found : bool then log ++ nl ++ py "Done! Final video: " ++ final_video ++ nl
        else log ++ nl ++ py "Pipeline finished but final video not found. Check logs above."
             ++ nl in
      yield log.

(** Lines 145 to 233: the configuration is patched, the stages run, and
    the [finally] clause writes the text that was read back. *)
Definition patched_scope (stage1 stage2 : child) (run_env : gmap pystr pystr)
    (project_dir music_name lip_sync resolution log : pystr) : M unit :=
  w ← get_world;
  config_content ← read_text (config_path w);
  let original_config := config_content in
  let config_content :=
    re_sub music_name_pattern (py "music_name = " ++ dq ++ music_name ++ dq)
      config_content in
  write_text (config_path w) config_content;;
  try_finally
    (stages stage1 stage2 run_env project_dir music_name lip_sync resolution log)
    (write_text (config_path w) original_config).

Definition lip_sync_warning : pystr :=
  py "Warning: Lip-sync (Jimeng) requires Volcengine (China) credentials." ++ nl ++
  py "Switching lip-sync to 'None' for BytePlus provider." ++ nl ++ nl.

Definition invalid_name_error : pystr :=
  py "Error: Please provide a valid music name (letters, numbers, underscores).".

Definition unsupported_audio_error : pystr :=
  py "Error: Only .mp3 and .wav files are supported.".

(** Lines 123 to 143, with the effective lip-sync mode. *)
Definition prepare_and_run (stage1 stage2 : child) (env : gmap pystr pystr)
    (audio_file music_name provider lip_sync resolution : pystr) : M unit :=
  w ← get_world;
  let project_dir := path_join (RESULT_DIR w) music_name in
  makedirs project_dir;;
  let ext := lower (splitext_ext audio_file) in
  if negb (bool_decide (ext ∈ [py ".mp3"; py ".wav"])) then
    yield unsupported_audio_error
  else
    let dest_audio := path_join project_dir (music_name ++ py ".mp3") in
    copy2 audio_file dest_audio;;
    let log := py "=== AutoMV Pipeline ===" ++ nl in
    let log := log ++ py "Provider: " ++ provider ++ nl in
    let log := log ++ py "Music: " ++ music_name ++ nl in
    let log := log ++ py "Lip-sync: " ++ lip_sync ++ nl in
    let log := log ++ py "Resolution: " ++ resolution ++ nl in
    let log := log ++ py "Audio copied to: " ++ dest_audio ++ nl ++ nl in
    yield log;;
    let run_env := <[py "PYTHONPATH" := AUTOMV_DIR w]> (env ∪ environ w) in
    patched_scope stage1 stage2 run_env project_dir music_name lip_sync resolution log.

Definition generate_music_video (stage1 stage2 : child)
    (audio_file music_name : option pystr) (lip_sync resolution : pystr) : M unit :=
  if negb (truthy audio_file) then
    yield (py "Error: Please upload a music file.")
  else
    let audio_file := default [] audio_file in
    let music_name := sanitize_music_name (py_or music_name (py "untitled")) in
    if bool_decide (music_name = []) then
      yield invalid_name_error
    else
      env ← load_env;
      let missing := snd <$> filter (λ kl, env_set env kl.1 = false) (take 2 API_KEYS) in
      if negb (bool_decide (missing = [])) then
        yield (py "Error: Required API keys not configured: " ++ join (py ", ") missing
               ++ nl ++ py "Please go to the Settings tab.")
      else
        let provider := default (py "byteplus") (env !! py "ARK_PROVIDER") in
        if bool_decide (provider = py "byteplus") && negb (bool_decide (lip_sync = py "None"))
        then
          yield lip_sync_warning;;
          let lip_sync := py "None" in
          prepare_and_run stage1 stage2 env audio_file music_name provider lip_sync resolution
        else
          prepare_and_run stage1 stage2 env audio_file music_name provider lip_sync resolution.

(** ** app.py: the project store *)

(** What [json.load] returns.  [F] is the type of Python floats. *)
#[local] Unset Elimination Schemes.
Inductive json (F : Type) :=
  | JNull
  | JBool (b : bool)
  | JInt (z : Z)
  | JFloat (x : F)
  | JStr (s : pystr)
  | JList (items : list (json F))
  | JDict (items : list (pystr * json F)).
#[local] Set Elimination Schemes.
Arguments JNull {F}.
Arguments JBool {F} b.
Arguments JInt {F} z.
Arguments JFloat {F} x.
Arguments JStr {F} s.
Arguments JList {F} items.
Arguments JDict {F} items.

(** The built-ins that the project store relies on and that are taken as
    given: floats and their formatting, the [repr] of a string, and the JSON
    parser. *)
Record builtins (F : Type) := Builtins {
  float_of_int : Z → option F;         (* [float(n)]; [None]: OverflowError *)
  format_f1 : F → pystr;               (* [format(x, ".1f")] *)
  repr_float : F → pystr;              (* [repr(x)] *)
  float_is_zero : F → bool;            (* [x == 0.0] *)
  repr_str : pystr → pystr;            (* [repr(s)] *)
  loads : pystr → option (json F);     (* [json.loads]; [None]: JSONDecodeError *)
}.
Arguments float_of_int {F} _ _.
Arguments format_f1 {F} _ _.
Arguments repr_float {F} _ _.
Arguments float_is_zero {F} _ _.
Arguments repr_str {F} _ _.
Arguments loads {F} _ _.

Inductive lookup_error :=
  | AttributeError
  | TypeError
  | ValueError
  | OverflowError
  | JSONDecodeError
  | OSError (e : exn).

(** [repr(v)] and [str(v)] *)
Fixpoint py_repr {F} (ops : builtins F) (v : json F) : pystr :=
  match v with
  | JNull => py "None"
  | JBool b => if b then py "True" else py "False"
  | JInt z => str_of_int z
  | JFloat x => repr_float ops x
  | JStr s => repr_str ops s
  | JList l => py "[" ++ join (py ", ") (map (py_repr ops) l) ++ py "]"
  | JDict d =>
    py "{" ++
    join (py ", ") (map (λ '(k, x), repr_str ops k ++ py ": " ++ py_repr ops x) d)
    ++ py "}"
  end.

Definition py_str {F} (ops : builtins F) (v : json F) : pystr :=
  match v with
  | JStr s => s
  | _ => py_repr ops v
  end.

(** [format(v, ".1f")] *)
Definition format_1f {F} (ops : builtins F) (v : json F) : lookup_error + pystr :=
  match v with
  | JInt z =>
    match float_of_int ops z with
    | Some x => inr (format_f1 ops x)
    | None => inl OverflowError
    end
  | JBool b =>
    match float_of_int ops (if b then 1 else 0)%Z with
    | Some x => inr (format_f1 ops x)
    | None => inl OverflowError
    end
  | JFloat x => inr (format_f1 ops x)
  | JStr _ => inl ValueError
  | _ => inl TypeError
  end.

(** [bool(v)] *)
Definition json_truthy {F} (ops : builtins F) (v : json F) : bool :=
  match v with
  | JNull => false
  | JBool b => b
  | JInt z => negb (bool_decide (z = 0%Z))
  | JFloat x => negb (float_is_zero ops x)
  | JStr s => negb (bool_decide (s = []))
  | JList l => match l with [] => false | _ => true end
  | JDict d => match d with [] => false | _ => true end
  end.

(** [d.get(key, default)] on the items of a dictionary *)
Fixpoint dict_get {F} (items : list (pystr * json F)) (key : string) (default : json F)
    : json F :=
  match items with
  | [] => default
  | (k, v) :: rest => if bool_decide (k = py key) then v else dict_get rest key default
  end.

(** [v.get(key, default)] *)
Definition json_get {F} (v : json F) (key : string) (default : json F)
    : lookup_error + json F :=
  match v with
  | JDict d => inr (dict_get d key default)
  | _ => inl AttributeError
  end.

(** The values that a [for] loop over [v] visits. *)
Definition json_iter {F} (v : json F) : lookup_error + list (json F) :=
  match v with
  | JList l => inr l
  | JDict d => inr ((λ kv, JStr kv.1) <$> d)
  | JStr s => inr ((λ c, JStr [c]) <$> s)
  | _ => inl TypeError
  end.

Definition bind_err {E A B} (x : E + A) (f : A → E + B) : E + B :=
  match x with
  | inl e => inl e
  | inr a => f a
  end.

(** One entry of the storyboard (lines 271 to 276). *)
Definition format_segment {F} (ops : builtins F) (seg : json F) : lookup_error + pystr :=
  bind_err (json_get seg "number" (JStr (py "?"))) (λ number,
  bind_err (json_get seg "start" (JInt 0)) (λ start,
  bind_err (format_1f ops start) (λ start,
  bind_err (json_get seg "end" (JInt 0)) (λ end_,
  bind_err (format_1f ops end_) (λ end_,
  bind_err (json_get seg "label" (JStr (py "unknown"))) (λ label,
  bind_err (json_get seg "text" (JStr (py "N/A"))) (λ text,
  bind_err (json_get seg "story" (JStr (py "N/A"))) (λ story,
  inr (py "**#" ++ py_str ops number ++ py "** [" ++ start ++ py "s - " ++ end_
       ++ py "s] (" ++ py_str ops label ++ py ")" ++ nl
       ++ py "Lyrics: " ++ py_str ops text ++ nl
       ++ py "Scene: " ++ py_str ops story ++ nl))))))))).

(** A loop that appends one formatted row per item and stops at the first
    error. *)
Fixpoint format_rows {E A} (f : A → E + pystr) (l : list A) : E + list pystr :=
  match l with
  | [] => inr []
  | x :: rest =>
    bind_err (f x) (λ row,
    bind_err (format_rows f rest) (λ rows, inr (row :: rows)))
  end.

Definition format_storyboard {F} (ops : builtins F) (story_data : json F)
    : lookup_error + pystr :=
  bind_err (json_iter story_data) (λ segs,
  bind_err (format_rows (format_segment ops) segs) (λ rows,
  inr (match rows with
       | [] => py "Empty storyboard."
       | _ => join (nl ++ py "---" ++ nl) rows
       end))).

(** One entry of the character sheet (lines 291 to 295). *)
Definition format_character {F} (ops : builtins F) (item : pystr * json F)
    : lookup_error + pystr :=
  let '(name, info) := item in
  bind_err (json_get info "name" (JStr name)) (λ shown,
  bind_err (json_get info "gender" (JStr (py "?"))) (λ gender,
  bind_err (json_get info "age" (JStr (py "?"))) (λ age,
  bind_err (json_get info "appearance" (JStr (py "N/A"))) (λ appearance,
  bind_err (json_get info "role" (JStr (py "N/A"))) (λ role,
  inr (py "**" ++ py_str ops shown ++ py "** " ++ [8212] ++ py " " ++ py_str ops gender
       ++ py ", " ++ py_str ops age ++ nl
       ++ py "Appearance: " ++ py_str ops appearance ++ nl
       ++ py "Role: " ++ py_str ops role ++ nl)))))).

Definition format_characters {F} (ops : builtins F) (label_data : json F)
    : lookup_error + pystr :=
  bind_err (json_get label_data "style_requirement" (JStr [])) (λ style,
  let char_lines :=
    if json_truthy ops style then [py "**Style:** " ++ py_str ops style ++ nl] else [] in
  bind_err (json_get label_data "character_depiction" (JDict [])) (λ chars,
  bind_err (match chars with JDict d => inr d | _ => inl AttributeError end) (λ items,
  bind_err (format_rows (format_character ops) items) (λ rows,
  let char_lines := char_lines ++ rows in
  inr (match char_lines with
       | [] => py "No characters defined."
       | _ => join (nl ++ py "---" ++ nl) char_lines
       end))))).

(** A document of the project directory: read as text, parsed, formatted;
    the placeholder when the file is not there. *)
Definition load_document {F} (ops : builtins F) (w : world) (path placeholder : pystr)
    (format : json F → lookup_error + pystr) : lookup_error + pystr :=
  match nodes w !! path with
  | None => inr placeholder
  | Some Dir => inl (OSError IsADirectoryError)
  | Some (File b) =>
    match loads ops (read_newlines b) with
    | None => inl JSONDecodeError
    | Some data => format data
    end
  end.

(** Lexicographic order on code points, the order of [sorted] on strings. *)
Fixpoint pystr_leb (a b : pystr) : bool :=
  match a, b with
  | [], _ => true
  | _ :: _, [] => false
  | x :: a', y :: b' => (x <? y) || ((x =? y) && pystr_leb a' b')
  end.

Fixpoint insert_sorted (x : pystr) (l : list pystr) : list pystr :=
  match l with
  | [] => [x]
  | y :: rest => if pystr_leb x y then x :: l else y :: insert_sorted x rest
  end.

Definition py_sorted (l : list pystr) : list pystr := foldr insert_sorted [] l.

(** [name] when [path] is the entry [name] of the directory [dir]. *)
Definition entry_name (dir path : pystr) : option pystr :=
  let prefix := if bool_decide (last dir = Some 47) then dir else dir ++ py "/" in
  if startswith prefix path then
    let name := drop (length prefix) path in
    if bool_decide (name = []) || bool_decide (47 ∈ name) then None else Some name
  else None.

(** [sorted(os.listdir(dir))] *)
Definition sorted_listdir (w : world) (dir : pystr) : lookup_error + list pystr :=
  match nodes w !! dir with
  | None => inl (OSError FileNotFoundError)
  | Some (File _) => inl (OSError NotADirectoryError)
  | Some Dir => inr (py_sorted (omap (entry_name dir) (elements (dom (nodes w)))))
  end.

Definition is_image (name : pystr) : bool :=
  existsb (λ e, endswith e (lower name)) [py ".jpg"; py ".jpeg"; py ".png"].

(** The images of one segment directory (lines 303 to 307). *)
Definition segment_keyframes (w : world) (picture_dir seg_dir : pystr)
    : lookup_error + list pystr :=
  let seg_path := path_join picture_dir seg_dir in
  match nodes w !! seg_path with
  | Some Dir =>
    bind_err (sorted_listdir w seg_path) (λ names,
    inr (path_join seg_path <$> filter (λ n, is_image n = true) names))
  | _ => inr []
  end.

Fixpoint concat_rows {E A B} (f : A → E + list B) (l : list A) : E + list B :=
  match l with
  | [] => inr []
  | x :: rest =>
    bind_err (f x) (λ ys,
    bind_err (concat_rows f rest) (λ zs, inr (ys ++ zs)))
  end.

Definition load_keyframes (w : world) (picture_dir : pystr) : lookup_error + list pystr :=
  match nodes w !! picture_dir with
  | None => inr []
  | Some _ =>
    bind_err (sorted_listdir w picture_dir) (λ seg_dirs,
    concat_rows (segment_keyframes w picture_dir) seg_dirs)
  end.

Record project_view := ProjectView {
  pv_video : option pystr;
  pv_storyboard : pystr;
  pv_characters : pystr;
  pv_keyframes : list pystr;
  pv_download : option pystr;
}.

Definition no_character_data : pystr := py "No character data found.".

Definition load_project {F} (ops : builtins F) (w : world) (project_name : option pystr)
    : lookup_error + project_view :=
  if negb (truthy project_name) then
    inr (ProjectView None (py "No project selected") (py "No project selected") [] None)
  else
    let project_name := default [] project_name in
    let project_dir := path_join (RESULT_DIR w) project_name in
    let video_path := path_join project_dir (py "mv_" ++ project_name ++ py ".mp4") in
    let video := if bool_decide (is_Some (nodes w !! video_path)) then Some video_path else None in
    let story_path := path_join project_dir (py "story.json") in
    bind_err (load_document ops w story_path (py "No storyboard found.")
                (format_storyboard ops)) (λ storyboard,
    let label_path := path_join project_dir (py "label.json") in
    bind_err (load_document ops w label_path no_character_data
                (format_characters ops)) (λ characters,
    let picture_dir := path_join project_dir (py "picture") in
    bind_err (load_keyframes w picture_dir) (λ keyframes,
    let download := match video with Some _ => Some video_path | None => None end in
    inr (ProjectView video storyboard characters keyframes download)))).

(** [os.path.isdir(p)] *)
Definition isdir (w : world) (p : pystr) : bool :=
  match nodes w !! p with
  | Some Dir => true
  | _ => false
  end.

(** Lines 91 to 98: the directories in the result directory, in order. *)
Definition list_projects (w : world) : lookup_error + list pystr :=
  match nodes w !! RESULT_DIR w with
  | None => inr []
  | Some _ =>
    bind_err (sorted_listdir w (RESULT_DIR w)) (λ names,
    inr (filter (λ d, isdir w (path_join (RESULT_DIR w) d) = true) names))
  end.

(** * Part II: the vocabulary of the properties *)

(** ** Runs and their traces *)

(** [sat I E m Q]: from a world in [I], a run of [m] ends in a world in [I],
    does events in [E] only, and returns values in [Q]. *)
Definition sat {A} (I : world → Prop) (E : event → Prop) (m : M A) (Q : A → Prop) : Prop :=
  ∀ s, I (st_world s) →
    I (st_world (m s).1.2) ∧ Forall E (m s).2 ∧ ∀ a, (m s).1.1 = Ok a → Q a.

(** A run whose consumer takes every value. *)
Definition live (s : state) : Prop := st_budget s = None.

Definition is_spawn (e : event) : bool :=
  match e with
  | EvSpawn _ _ _ => true
  | _ => false
  end.

Definition is_write (e : event) : bool :=
  match e with
  | EvWrite _ _ => true
  | _ => false
  end.

Definition is_warning (e : event) : bool :=
  match e with
  | EvPrint l => startswith (py "  [WARN]") l
  | _ => false
  end.

(** A run has printed a warning; a run has written a file. *)
Definition warned (t : list event) : bool := existsb is_warning t.
Definition wrote (t : list event) : bool := existsb is_write t.


(** From a live state, [m] launches nothing and leaves the run live. *)
Definition quiet {A} (m : M A) : Prop :=
  ∀ s, live s → Forall (λ e, is_spawn e = false) (m s).2 ∧ live (m s).1.2.






(** ** Texts and markers *)

(** What the loop of [patch_file] computes. *)
Fixpoint replace_all (replacements : list (pystr * pystr)) (content : pystr) : pystr :=
  match replacements with
  | [] => content
  | (old, new) :: rest =>
    replace_all rest (if contains old content then replace_first old new content else content)
  end.

(** Some nonempty end of [a] is a start of [b]. *)
Definition borders (a b : pystr) : bool :=
  existsb (λ k, bool_decide (drop (length a - k) a = take k b))
    (seq 1 (length a `min` length b)).

(** No occurrence of [a] can share a character with an occurrence of [b]. *)
Definition apart (a b : pystr) : bool :=
  negb (borders a b) && negb (borders b a) && negb (contains a b) && negb (contains b a).

(** ** Settings *)

Definition saved (w : world) (k : pystr) : option pystr := default ∅ (dotenv w) !! k.

(** The settings file is there, or can be made: its directory is there. *)
Definition settings_writable (w : world) : Prop :=
  dotenv w ≠ None ∨ nodes w !! AUTOMV_DIR w = Some Dir.

(** The provider that a run uses on the host [w]. *)
Definition active_provider (w : world) : pystr :=
  default (py "byteplus") (default ∅ (dotenv w) !! py "ARK_PROVIDER").

(** The two required keys are set on the host [w]. *)
Definition keys_configured (w : world) : Prop :=
  env_set (default ∅ (dotenv w)) (py "GEMINI_API_KEY") = true
  ∧ env_set (default ∅ (dotenv w)) (py "DOUBAO_API_KEY") = true.

(** ** Segments *)

(** A time in seconds: a number that a float can hold. *)
Definition is_seconds {F} (ops : builtins F) (v : json F) : Prop :=
  match v with
  | JInt z => is_Some (float_of_int ops z)
  | JBool b => is_Some (float_of_int ops (if b then 1 else 0)%Z)
  | JFloat _ => True
  | _ => False
  end.

(** A segment object: its start and end, where given, are times. *)
Definition segment_ok {F} (ops : builtins F) (seg : list (pystr * json F)) : Prop :=
  is_seconds ops (dict_get seg "start" (JInt 0))
  ∧ is_seconds ops (dict_get seg "end" (JInt 0)).

(** ** Sample hosts and children *)

Definition sample_config (eol : pystr) : pystr :=
  py "class Config:" ++ eol ++ py "    music_name = " ++ dq ++ py "1" ++ dq ++ eol.

Definition sample_dotenv : gmap pystr pystr :=
  <[py "GEMINI_API_KEY" := py "g-key"]> (<[py "DOUBAO_API_KEY" := py "ark-key"]> ∅).

(** A POSIX host with the repository cloned next to the application, both
    required keys set, and an audio file. *)
Definition sample_host (config : pystr) (audio_path : pystr) : world :=
  World (py "/app") nl ∅
    (<[py "/app/AutoMV_repo" := Dir]>
     (<[py "/app/AutoMV_repo/config.py" := File config]>
     (<[audio_path := File (py "RIFF")]> ∅)))
    (Some sample_dotenv).

Definition sample_stage (code : Z) : child :=
  Child None [([], py "working" ++ nl)] None [] code.

(** A repository whose [call_gemini.py] has both patterns. *)
Definition sample_repo : world :=
  World (py "/app") nl ∅
    (<[py "/app/AutoMV_repo" := Dir]>
     (<[py "/app/AutoMV_repo/video_generate/call_gemini.py" :=
          File (py "client = Ark(base_url=" ++ dq
                ++ py "https://ark.cn-beijing.volces.com/api/v3" ++ dq ++ py ")" ++ nl
                ++ py "model=" ++ dq ++ py "doubao-seed-1.6-250615" ++ dq ++ py "," ++ nl)]>
      ∅))
    None.

(** Built-ins for examples: floats are tenths, given as integers. *)
Definition sample_builtins (document : json Z) : builtins Z :=
  Builtins Z
    (λ z, Some (10 * z)%Z)
    (λ x, str_of_int (x / 10) ++ py "." ++ str_of_int (x mod 10))
    (λ x, str_of_int (x / 10) ++ py "." ++ str_of_int (x mod 10))
    (λ x, bool_decide (x = 0%Z))
    (λ s, py "'" ++ s ++ py "'")
    (λ _, Some document).

Definition sample_story : json Z :=
  JList
    [ JDict [ (py "number", JInt 1); (py "start", JInt 0); (py "end", JFloat 125%Z);
              (py "label", JStr (py "verse")); (py "text", JStr (py "la la"));
              (py "story", JStr (py "A street at night.")) ];
      JDict [ (py "number", JInt 2); (py "start", JFloat 125%Z); (py "end", JInt 30);
              (py "label", JStr (py "chorus")) ] ].

Definition sample_project : world :=
  World (py "/app") nl ∅
    (<[py "/app/AutoMV_repo/result/demo" := Dir]>
     (<[py "/app/AutoMV_repo/result/demo/story.json" := File (py "[{}, {}]")]> ∅))
    None.

(** ** The batch of the patcher *)

(** The steps of [main], in order. *)
Definition all_targets : list target :=
  [Config; Picture; VideoPipeline; CallGemini; LipSync].

(** The steps [ts] one after the other, then [k]. *)
Definition then_steps {A} (ts : list target) (k : M A) : M A :=
  foldr (λ t m, patch_step t;; m) k ts.

Definition banner_line : pystr := py "Applying BytePlus patches to AutoMV repo...".
Definition done_line : pystr := py "Done! BytePlus support patched successfully.".

(** What a patch step on the file [path] may do: print, and write [path]. *)
Definition patcher_event (path : pystr) (e : event) : Prop :=
  match e with
  | EvPrint _ => True
  | EvWrite p _ => p = path
  | _ => False
  end.

(** The state after a step that wrote [text] to [path], or wrote nothing. *)
Definition written (path : pystr) (text : option pystr) (s : state) : state :=
  match text with
  | Some c =>
    State (set_nodes (insert path (File (write_newlines (linesep (st_world s)) c)))
             (st_world s)) (st_budget s)
  | None => s
  end.

(** Two nodes of the same kind: both regular files, both directories, or
    both absent. *)
Definition same_kind (a b : option node) : Prop :=
  match a, b with
  | Some (File _), Some (File _) => True
  | Some Dir, Some Dir => True
  | None, None => True
  | _, _ => False
  end.

(** A host on which the repository has not been cloned. *)
Definition sample_bare_host : world :=
  World (py "/app") nl ∅ (<[py "/app/notes.txt" := File (py "todo")]> ∅) None.

(** A configuration as the repository ships it, with both patterns of
    [patch_config]. *)
Definition sample_upstream_config : pystr :=
  py "class Config:" ++ nl ++
  py "    music_name = " ++ dq ++ py "1" ++ dq ++ nl ++
  py "    def check(cls):" ++ nl ++
  py "        if not cls.DOUBAO_API_KEY:" ++ nl ++
  py "            raise ValueError(" ++ dq ++ py "OPENAI_API_KEY not found in .env" ++ dq
  ++ py ")" ++ nl.

(** A repository with that configuration, a [call_gemini.py] with both
    patterns, and no other target. *)
Definition sample_fresh_repo : world :=
  set_nodes (insert (py "/app/AutoMV_repo/config.py") (File sample_upstream_config))
    sample_repo.

(** ** Settings files *)


(** Settings with the two required keys, both with other values than in
    [sample_dotenv], and a third key. *)
Definition sample_other_dotenv : gmap pystr pystr :=
  <[py "GEMINI_API_KEY" := py "another-g-key"]>
    (<[py "DOUBAO_API_KEY" := py "another-ark-key"]>
       (<[py "GPU_ID" := py "1"]> ∅)).

(** ** The events of a run *)

(** The environment that a run on the host [w] gives its children: the
    process environment, overridden by the settings file, with the
    repository as the module path. *)
Definition child_env (w : world) : gmap pystr pystr :=
  <[py "PYTHONPATH" := AUTOMV_DIR w]> (default ∅ (dotenv w) ∪ environ w).

(** The events that a run on the host [w] for the uploaded file
    [audio_file] under the project name [name] may do; what the children do
    is not among them. *)
Definition run_event (w : world) (audio_file name : pystr) (e : event) : Prop :=
  let project_dir := path_join (RESULT_DIR w) name in
  let dest_audio := path_join project_dir (name ++ py ".mp3") in
  match e with
  | EvYield _ => True
  | EvPrint _ => False
  | EvMakedirs p => p = project_dir
  | EvCopy src dst =>
    src = audio_file
    ∧ (dst = dest_audio ∨ dst = path_join dest_audio (basename audio_file))
  | EvWrite p _ => p = config_path w ∨ p = gen_script_path w
  | EvRemove p => p = gen_script_path w
  | EvSpawn argv cwd env =>
    (argv = stage1_argv ∨ argv = stage2_argv) ∧ cwd = AUTOMV_DIR w ∧ env = child_env w
  end.

(** A host as [sample_host] whose process environment has a search path, a
    module path and a key of its own. *)
Definition sample_env_host : world :=
  let w := sample_host (sample_config nl) (py "/tmp/song.wav") in
  World (here w) (linesep w)
    (<[py "PATH" := py "/usr/bin"]>
       (<[py "PYTHONPATH" := py "/elsewhere"]>
          (<[py "GEMINI_API_KEY" := py "from-shell"]> ∅)))
    (nodes w) (dotenv w).

(** ** Directories *)

(** [name] can be the name of an entry of a directory. *)
Definition entry (name : pystr) : Prop := name ≠ [] ∧ 47 ∉ name.

(** The order of [sorted] on strings. *)
Definition pystr_le (a b : pystr) : Prop := pystr_leb a b = true.

(** A result directory with two projects, one of them with key frames, and
    a stray file. *)
Definition sample_results : world :=
  World (py "/app") nl ∅
    (<[py "/app/AutoMV_repo/result" := Dir]>
     (<[py "/app/AutoMV_repo/result/zebra" := Dir]>
     (<[py "/app/AutoMV_repo/result/demo" := Dir]>
     (<[py "/app/AutoMV_repo/result/notes.txt" := File (py "todo")]>
     (<[py "/app/AutoMV_repo/result/demo/mv_demo.mp4" := File (py "video")]>
     (<[py "/app/AutoMV_repo/result/demo/picture" := Dir]>
     (<[py "/app/AutoMV_repo/result/demo/picture/cover.png" := File (py "png")]>
     (<[py "/app/AutoMV_repo/result/demo/picture/2" := Dir]>
     (<[py "/app/AutoMV_repo/result/demo/picture/2/b.PNG" := File (py "png")]>
     (<[py "/app/AutoMV_repo/result/demo/picture/2/a.jpg" := File (py "jpg")]>
     (<[py "/app/AutoMV_repo/result/demo/picture/2/prompt.txt" := File (py "text")]>
     (<[py "/app/AutoMV_repo/result/demo/picture/1" := Dir]>
     (<[py "/app/AutoMV_repo/result/demo/picture/1/k.jpeg" := File (py "jpg")]>
      ∅)))))))))))))
    None.

(** * Part III: properties *)

Arguments py : simpl never.
Arguments path_join : simpl never.
Arguments contains : simpl never.
Arguments read_newlines : simpl never.
Arguments write_newlines : simpl never.
Arguments re_sub : simpl never.

Ltac munfold :=
  unfold path_exists, read_text, write_text, print, emit, raise, get_world,
    modify_world, mbind, M_bind, mret, M_ret.

(** ** Steps of a run *)

Section monad_steps.
Context {A B : Type} (m : M A) (f : A → M B).

Lemma bind_ok s a s1 t1 :
  m s = (Ok a, s1, t1) →
  (m ≫= f) s = (let '(r, s2, t2) := f a s1 in (r, s2, t1 ++ t2)).
Proof. intros H. unfold mbind, M_bind. by rewrite H. Qed.

Lemma bind_raise s e s1 t1 :
  m s = (Raise e, s1, t1) → (m ≫= f) s = (Raise e, s1, t1).
Proof. intros H. unfold mbind, M_bind. by rewrite H. Qed.
End monad_steps.

Lemma bind_silent {A B} (m : M A) (f : A → M B) s a :
  m s = (Ok a, s, []) → (m ≫= f) s = f a s.
Proof.
  intros H. unfold mbind, M_bind. rewrite H. by destruct (f a s) as [[r s2] t2].
Qed.

Lemma bind_ok_world {A B} (m : M A) (f : A → M B) s a s1 t1 :
  m s = (Ok a, s1, t1) → st_world ((m ≫= f) s).1.2 = st_world (f a s1).1.2.
Proof.
  intros H. unfold mbind, M_bind. rewrite H. by destruct (f a s1) as [[r s2] t2].
Qed.

Lemma bind_world_pure {A B} (m : M A) (f : A → M B) s :
  (∀ a s1, st_world (f a s1).1.2 = st_world s1) →
  st_world ((m ≫= f) s).1.2 = st_world (m s).1.2.
Proof.
  intros Hf. unfold mbind, M_bind. destruct (m s) as [[[a|e] s1] t1]; [|done].
  specialize (Hf a s1). by destruct (f a s1) as [[r s2] t2].
Qed.

Lemma yield_trace x s : (yield x s).2 = [EvYield x].
Proof. unfold yield. by destruct (st_budget s) as [[|[|n]]|]. Qed.

Lemma yield_world x s : st_world (yield x s).1.2 = st_world s.
Proof. unfold yield. by destruct (st_budget s) as [[|[|n]]|]. Qed.


Lemma run_events {A} (m : M A) (w : world) (budget : option nat) (E : event → Prop) :
  (∀ s, st_world s = w → Forall E (m s).2) → Forall E (run m w budget).2.
Proof.
  intros H. unfold run. destruct budget as [[|n]|].
  - constructor.
  - specialize (H (State w (Some (S n))) eq_refl).
    destruct (m _) as [[r s] t]. done.
  - specialize (H (State w None) eq_refl).
    destruct (m _) as [[r s] t]. done.
Qed.

(** ** [sanitize_music_name] *)

Example sanitize_demo :
  sanitize_music_name (py "my song (v2).mp3") = py "my_song__v2__mp3".
Proof. reflexivity. Qed.

Lemma sanitize_char_fixed c :
  is_name_char c = true →
  (if is_name_char c then c else 95) = c.
Proof. by intros ->. Qed.

Lemma sanitize_char_ok c :
  is_name_char (if is_name_char c then c else 95) = true.
Proof. destruct (is_name_char c) eqn:E; [exact E | reflexivity]. Qed.

Lemma sanitize_length name :
  length (sanitize_music_name name) = length name.
Proof. unfold sanitize_music_name. by rewrite length_fmap. Qed.

Lemma sanitize_chars name :
  Forall (λ c, is_name_char c = true) (sanitize_music_name name).
Proof.
  unfold sanitize_music_name.
  induction name as [|c name IH]; constructor; [apply sanitize_char_ok | exact IH].
Qed.

Lemma sanitize_fixed name :
  Forall (λ c, is_name_char c = true) name →
  sanitize_music_name name = name.
Proof.
  unfold sanitize_music_name.
  induction 1 as [|c name Hc _ IH]; [done|].
  cbn. by rewrite Hc, IH.
Qed.

(** C7: [sanitize_music_name] is idempotent and its output only has
    characters of [[A-Za-z0-9_]]. *)
Theorem sanitize_music_name_idempotent_charset (name : pystr) :
  sanitize_music_name (sanitize_music_name name) = sanitize_music_name name
  ∧ Forall (λ c, is_name_char c = true) (sanitize_music_name name).
Proof.
  split; [apply sanitize_fixed|]; apply sanitize_chars.
Qed.

Lemma py_or_nonempty (x : option pystr) (d : pystr) : d ≠ [] → py_or x d ≠ [].
Proof. intros Hd. destruct x as [[|c s]|]; cbn; done. Qed.

Lemma sanitize_nonempty name : name ≠ [] → sanitize_music_name name ≠ [].
Proof.
  intros Hn Hs. apply Hn, length_zero_iff_nil.
  by rewrite <- sanitize_length, Hs.
Qed.

Lemma sanitized_name_nonempty (music_name : option pystr) :
  sanitize_music_name (py_or music_name (py "untitled")) ≠ [].
Proof. apply sanitize_nonempty, py_or_nonempty. discriminate. Qed.

(** ** Substrings *)

Lemma startswith_app p s : startswith p (p ++ s) = true.
Proof. induction p as [|c p IH]; [done|]. cbn. by rewrite N.eqb_refl. Qed.

Lemma startswith_inv p s : startswith p s = true → ∃ r, s = p ++ r.
Proof.
  revert s. induction p as [|c p IH]; intros s H; [by exists s|].
  destruct s as [|d s]; [done|]. cbn in H.
  apply andb_true_iff in H as [Hc Hp]. apply N.eqb_eq in Hc as ->.
  destruct (IH s Hp) as [r ->]. by exists r.
Qed.

Lemma startswith_drop p s : startswith p s = true → s = p ++ drop (length p) s.
Proof.
  intros H. destruct (startswith_inv p s H) as [r ->]. by rewrite drop_app_length.
Qed.

Lemma contains_unfold sub s :
  contains sub s
  = startswith sub s || match s with [] => false | _ :: s' => contains sub s' end.
Proof. by destruct s. Qed.

Lemma contains_intro sub a c : contains sub (a ++ sub ++ c) = true.
Proof.
  induction a as [|x a IH]; rewrite contains_unfold.
  - cbn [app]. by rewrite startswith_app.
  - cbn [app]. rewrite IH. apply orb_true_r.
Qed.

Lemma contains_inv sub s : contains sub s = true → ∃ a c, s = a ++ sub ++ c.
Proof.
  induction s as [|x s IH]; rewrite contains_unfold; intros H.
  - rewrite orb_false_r in H. destruct (startswith_inv _ _ H) as [r ->]. by exists [], r.
  - apply orb_true_iff in H as [H|H].
    + destruct (startswith_inv _ _ H) as [r ->]. by exists [], r.
    + destruct (IH H) as (a & c & ->). by exists (x :: a), c.
Qed.

Lemma contains_at sub s a c : s = a ++ sub ++ c → contains sub s = true.
Proof. intros ->. apply contains_intro. Qed.

Lemma replace_first_unfold old new s :
  replace_first old new s
  = if startswith old s then new ++ drop (length old) s
    else match s with [] => [] | c :: s' => c :: replace_first old new s' end.
Proof. by destruct s. Qed.

(** [replace] rewrites one occurrence of [old]. *)
Lemma replace_first_spec old new s :
  contains old s = true →
  ∃ p q, s = p ++ old ++ q ∧ replace_first old new s = p ++ new ++ q.
Proof.
  induction s as [|x s IH]; rewrite contains_unfold, replace_first_unfold; intros H.
  - rewrite orb_false_r in H. rewrite H. exists [], (drop (length old) []).
    split; [|done]. by apply startswith_drop.
  - destruct (startswith old (x :: s)) eqn:Hp.
    + exists [], (drop (length old) (x :: s)). split; [|done]. by apply startswith_drop.
    + cbn [orb] in H. destruct (IH H) as (p & q & -> & ->). by exists (x :: p), q.
Qed.

Lemma borders_intro x y z : y ≠ [] → borders (x ++ y) (y ++ z) = true.
Proof.
  intros Hy. unfold borders. apply existsb_exists. exists (length y). split.
  - apply in_seq. rewrite !length_app. destruct y; [done|]. cbn. lia.
  - apply bool_decide_eq_true_2.
    rewrite length_app, Nat.add_sub, drop_app_length. by rewrite take_app_length.
Qed.

(** Replacing an occurrence of [old] keeps an occurrence of a marker that
    is apart from [old]. *)
Lemma replace_keeps_marker old new m p q :
  apart old m = true →
  contains m (p ++ old ++ q) = true → contains m (p ++ new ++ q) = true.
Proof.
  unfold apart. intros Hap Hc.
  apply andb_true_iff in Hap as [Hap Hc2]. apply andb_true_iff in Hap as [Hap Hc1].
  apply andb_true_iff in Hap as [Hb1 Hb2].
  apply negb_true_iff in Hb1, Hb2, Hc1, Hc2.
  destruct (contains_inv _ _ Hc) as (a & c & Heq).
  apply app_eq_app in Heq as [l [[-> Heq]|[-> Heq]]].
  - (* the marker starts before [old] *)
    apply app_eq_app in Heq as [l2 [[-> Heq]|[-> ->]]].
    + (* and runs up to it or into it *)
      destruct l2 as [|y l2].
      * apply (contains_at _ _ a (new ++ q)). by rewrite app_nil_r, <- !app_assoc.
      * apply app_eq_app in Heq as [l3 [[-> ->]|[Hl2 ->]]].
        -- rewrite borders_intro in Hb2; done.
        -- rewrite Hl2 in Hc1. by rewrite (contains_intro old l l3) in Hc1.
    + (* and ends before it *)
      apply (contains_at _ _ a (l2 ++ new ++ q)). by rewrite <- !app_assoc.
  - (* the marker starts at or after the start of [old] *)
    apply app_eq_app in Heq as [l2 [[-> Heq]|[-> ->]]].
    + (* inside [old], or at its end *)
      destruct l2 as [|y l2].
      * cbn [app] in Heq. subst q.
        apply (contains_at _ _ (p ++ new) c). by rewrite <- !app_assoc.
      * apply app_eq_app in Heq as [l3 [[-> ->]|[Hl2 ->]]].
        -- rewrite borders_intro in Hb1; done.
        -- rewrite Hl2 in Hc2. by rewrite (contains_intro m l l3) in Hc2.
    + (* after [old] *)
      apply (contains_at _ _ (p ++ new ++ l2) c). by rewrite <- !app_assoc.
Qed.

Lemma replace_all_keeps reps m content :
  forallb (λ r, apart r.1 m) reps = true →
  contains m content = true → contains m (replace_all reps content) = true.
Proof.
  revert content. induction reps as [|[old new] rest IH]; intros content Hap Hc; [done|].
  cbn in Hap. apply andb_true_iff in Hap as [Ho Hrest].
  cbn [replace_all]. apply IH; [done|].
  destruct (contains old content) eqn:Hold; [|done].
  destruct (replace_first_spec old new content Hold) as (p & q & -> & ->).
  by eapply replace_keeps_marker.
Qed.

Lemma re_sub_from_changed (m : matcher) repl s :
  re_sub_from m repl 0 s = s ∨ ∃ pre post, re_sub_from m repl 0 s = pre ++ repl ++ post.
Proof.
  induction s as [|c s IH]; [by left|]. cbn [re_sub_from].
  destruct (m (c :: s)) as [rest|].
  - right. by exists [], (re_sub_from m repl (length s - length rest) s).
  - destruct IH as [->|(pre & post & ->)]; [by left|].
    right. by exists (c :: pre), post.
Qed.

(** ** Newline translation *)

Lemma write_newlines_posix s : write_newlines nl s = s.
Proof.
  induction s as [|c s IH]; [done|].
  change (write_newlines nl (c :: s))
    with ((if c =? 10 then nl else [c]) ++ write_newlines nl s).
  rewrite IH. destruct (N.eqb_spec c 10) as [->|]; done.
Qed.

Lemma read_newlines_no_cr b : 13 ∉ b → read_newlines b = b.
Proof.
  induction b as [|c b IH]; [done|]. intros Hc.
  apply not_elem_of_cons in Hc as [Hc Hb].
  change (read_newlines (c :: b))
    with (if c =? 13
          then 10 :: match b with
                     | d :: r' => if d =? 10 then read_newlines r' else read_newlines b
                     | [] => []
                     end
          else c :: read_newlines b).
  destruct (N.eqb_spec c 13) as [->|]; [done|]. by rewrite IH.
Qed.

Lemma write_newlines_app sep a b :
  write_newlines sep (a ++ b) = write_newlines sep a ++ write_newlines sep b.
Proof.
  induction a as [|c a IH]; [done|].
  change (write_newlines sep ((c :: a) ++ b))
    with ((if c =? 10 then sep else [c]) ++ write_newlines sep (a ++ b)).
  change (write_newlines sep (c :: a))
    with ((if c =? 10 then sep else [c]) ++ write_newlines sep a).
  by rewrite IH, app_assoc.
Qed.

Lemma write_newlines_plain sep m : 10 ∉ m → write_newlines sep m = m.
Proof.
  induction m as [|c m IH]; [done|]. intros Hc.
  apply not_elem_of_cons in Hc as [Hc Hm].
  change (write_newlines sep (c :: m))
    with ((if c =? 10 then sep else [c]) ++ write_newlines sep m).
  rewrite IH by done. destruct (N.eqb_spec c 10); done.
Qed.

Lemma read_newlines_cons c b :
  read_newlines (c :: b)
  = if c =? 13
    then 10 :: match b with
               | d :: r' => if d =? 10 then read_newlines r' else read_newlines b
               | [] => []
               end
    else c :: read_newlines b.
Proof. reflexivity. Qed.

Lemma read_newlines_split_len (n : nat) a x r :
  (length a ≤ n)%nat → x ≠ 10 →
  read_newlines (a ++ x :: r) = read_newlines a ++ read_newlines (x :: r).
Proof.
  revert a. induction n as [|n IH]; intros a Hn Hx.
  - destruct a; [done | cbn in Hn; lia].
  - destruct a as [|c a]; [done|]. cbn in Hn.
    change ((c :: a) ++ x :: r) with (c :: (a ++ x :: r)).
    rewrite (read_newlines_cons c (a ++ x :: r)), (read_newlines_cons c a).
    destruct (c =? 13); [|by rewrite IH by (done || lia)].
    destruct a as [|d a].
    + cbn [app]. apply N.eqb_neq in Hx. by rewrite Hx.
    + change ((d :: a) ++ x :: r) with (d :: (a ++ x :: r)). cbn in Hn.
      cbv beta iota. destruct (d =? 10).
      * by rewrite IH by (done || lia).
      * change (d :: (a ++ x :: r)) with ((d :: a) ++ x :: r).
        by rewrite (IH (d :: a)) by (done || cbn; lia).
Qed.

Lemma read_newlines_split a x r :
  x ≠ 10 → read_newlines (a ++ x :: r) = read_newlines a ++ read_newlines (x :: r).
Proof. by apply (read_newlines_split_len (length a)). Qed.

Lemma read_newlines_plain m c : 13 ∉ m → read_newlines (m ++ c) = m ++ read_newlines c.
Proof.
  induction m as [|x m IH]; [done|]. intros Hm.
  apply not_elem_of_cons in Hm as [Hx Hm].
  change ((x :: m) ++ c) with (x :: (m ++ c)). rewrite read_newlines_cons.
  assert ((x =? 13) = false) as -> by (apply N.eqb_neq; congruence). by rewrite IH.
Qed.

(** A marker without line ends that is in a text is in the text that a
    write and a later read give. *)
Lemma marker_survives_write_read sep m s :
  m ≠ [] → 10 ∉ m → 13 ∉ m →
  contains m s = true → contains m (read_newlines (write_newlines sep s)) = true.
Proof.
  intros Hm H10 H13 Hc. destruct (contains_inv _ _ Hc) as (a & c & ->).
  rewrite !write_newlines_app, (write_newlines_plain sep m) by done.
  destruct m as [|x m]; [done|]. cbn [app].
  rewrite read_newlines_split by (intros ->; apply H10; left).
  change (x :: m ++ write_newlines sep c) with ((x :: m) ++ write_newlines sep c).
  rewrite (read_newlines_plain (x :: m)) by done.
  apply contains_intro.
Qed.

(** ** The source patcher *)

Lemma patch_file_marker filepath reps marker w bud b :
  nodes w !! path_join (REPO_DIR w) filepath = Some (File b) →
  marker ≠ [] →
  contains marker (read_newlines b) = true →
  patch_file filepath reps marker (State w bud)
  = (Ok true, State w bud,
     [EvPrint (py "  [OK] " ++ filepath ++ py " already patched")]).
Proof.
  intros Hf Hm Hc. unfold patch_file. munfold. cbn.
  rewrite Hf. rewrite bool_decide_eq_true_2 by eauto. cbn. rewrite Hf. cbn.
  rewrite Hc. rewrite bool_decide_eq_false_2 by done. cbn.
  reflexivity.
Qed.

Lemma patch_step_marker (t : target) (w : world) (b : pystr) bud :
  nodes w !! target_path w t = Some (File b) →
  contains (target_marker t) (read_newlines b) = true →
  patch_step t (State w bud)
  = (Ok true, State w bud, [EvPrint (already_patched_line t)]).
Proof.
  intros Hf Hc. destruct t; cbn [patch_step].
  - unfold patch_config. munfold. cbn. unfold target_path in Hf. cbn [target_file] in Hf.
    rewrite Hf. cbn. cbn [target_marker] in Hc. rewrite Hc. reflexivity.
  - apply (patch_file_marker _ _ _ _ _ b); done.
  - apply (patch_file_marker _ _ _ _ _ b); done.
  - apply (patch_file_marker _ _ _ _ _ b); done.
  - unfold patch_lip_sync. munfold. cbn. unfold target_path in Hf. cbn [target_file] in Hf.
    rewrite Hf. rewrite bool_decide_eq_true_2 by eauto. cbn. rewrite Hf. cbn.
    cbn [target_marker] in Hc. rewrite Hc. reflexivity.
Qed.

Lemma patch_file_missing filepath reps marker w bud :
  nodes w !! path_join (REPO_DIR w) filepath = None →
  patch_file filepath reps marker (State w bud)
  = (Ok false, State w bud, [EvPrint (py "  [SKIP] " ++ filepath ++ py " not found")]).
Proof.
  intros Hf. unfold patch_file. munfold. cbn. rewrite Hf.
  rewrite bool_decide_eq_false_2 by (intros [? ?]; done). reflexivity.
Qed.

(** The four targets whose step checks for the file first. *)
Lemma patch_step_missing_skips (t : target) (w : world) bud :
  t ≠ Config →
  nodes w !! target_path w t = None →
  patch_step t (State w bud) = (Ok false, State w bud, [EvPrint (skipped_line t)]).
Proof.
  intros Ht Hf. destruct t; try done; cbn [patch_step].
  - by apply patch_file_missing.
  - by apply patch_file_missing.
  - by apply patch_file_missing.
  - unfold patch_lip_sync. munfold. cbn. unfold target_path in Hf. cbn [target_file] in Hf.
    rewrite Hf. rewrite bool_decide_eq_false_2 by (intros [? ?]; done). reflexivity.
Qed.

(** [patch_config] opens the file without that check. *)
Lemma patch_config_missing w bud :
  nodes w !! target_path w Config = None →
  patch_config (State w bud) = (Raise FileNotFoundError, State w bud, []).
Proof.
  intros Hf. unfold patch_config. munfold. cbn.
  unfold target_path in Hf. cbn [target_file] in Hf. rewrite Hf. reflexivity.
Qed.

Lemma main_config_missing w bud :
  is_Some (nodes w !! REPO_DIR w) →
  nodes w !! target_path w Config = None →
  main (State w bud)
  = (Raise FileNotFoundError, State w bud,
     [EvPrint (py "Applying BytePlus patches to AutoMV repo...")]).
Proof.
  intros Hr Hf. unfold main.
  erewrite bind_ok by reflexivity.
  erewrite bind_ok by reflexivity.
  erewrite bind_ok by (unfold path_exists; munfold; cbn; reflexivity).
  rewrite bool_decide_eq_true_2 by done. cbn [negb].
  erewrite bind_raise by (apply patch_config_missing; exact Hf).
  reflexivity.
Qed.

(** C4 fails on the code for [config.py]: when the repository is there and
    [config.py] is not, [patch_config] raises and the batch stops before the
    other four targets. *)
Theorem missing_config_aborts_batch :
  let w := World (py "/app") nl ∅
             (<[py "/app/AutoMV_repo" := Dir]>
              (<[py "/app/AutoMV_repo/picture_generate/picture.py" :=
                   File (py "from volcenginesdkarkruntime import Ark" ++ nl)]> ∅))
             None in
  nodes w !! target_path w Config = None
  ∧ main (start w)
    = (Raise FileNotFoundError, start w,
       [EvPrint (py "Applying BytePlus patches to AutoMV repo...")]).
Proof.
  intros w.
  assert (nodes w !! target_path w Config = None) as Hc by (vm_compute; reflexivity).
  split; [exact Hc|]. apply main_config_missing; [|exact Hc].
  exists Dir. vm_compute. reflexivity.
Qed.

(** ** Running the patcher again *)

Lemma apply_replacements_run filepath reps content s :
  ∃ tr, apply_replacements filepath reps content s = (Ok (replace_all reps content), s, tr)
        ∧ wrote tr = false
        ∧ (warned tr = false →
           match reps with
           | [] => True
           | (old, _) :: _ => contains old content = true
           end).
Proof.
  revert content. induction reps as [|[old new] rest IH]; intros content.
  - by exists [].
  - cbn [apply_replacements replace_all]. destruct (contains old content) eqn:Hc; cbn [negb].
    + destruct (IH (replace_first old new content)) as (tr & -> & Hw & _).
      by exists tr.
    + destruct (IH content) as (tr & Hrun & Hw & _).
      erewrite bind_ok by reflexivity. rewrite Hrun.
      eexists. split_and!; [reflexivity | exact Hw | done].
Qed.

(** A run of [patch_file] writes nothing and leaves the state as it is, or
    it writes the text that the replacements give. *)
Lemma patch_file_outcome filepath reps marker s :
  let path := path_join (REPO_DIR (st_world s)) filepath in
  let out := patch_file filepath reps marker s in
  (out.1.2 = s ∧ wrote out.2 = false)
  ∨ (∃ b, nodes (st_world s) !! path = Some (File b)
        ∧ out.1.2
          = State (set_nodes
                     (insert path
                        (File (write_newlines (linesep (st_world s))
                                 (replace_all reps (read_newlines b)))))
                     (st_world s)) (st_budget s)
        ∧ wrote out.2 = true
        ∧ (warned out.2 = false →
           match reps with
           | [] => True
           | (old, _) :: _ => contains old (read_newlines b) = true
           end)).
Proof.
  intros path out. subst out. unfold patch_file.
  erewrite bind_silent by reflexivity. fold path.
  destruct (nodes (st_world s) !! path) as [[b|]|] eqn:Hp.
  - erewrite bind_silent
      by (unfold path_exists; munfold; cbn; rewrite Hp; reflexivity).
    rewrite bool_decide_eq_true_2 by eauto. cbn [negb].
    erewrite bind_silent by (unfold read_text; munfold; cbn; rewrite Hp; reflexivity).
    destruct (negb (bool_decide (marker = [])) && contains marker (read_newlines b)).
    { left. by destruct s. }
    destruct (apply_replacements_run filepath reps (read_newlines b) s)
      as (tr & Hrun & Hw & Hfound).
    erewrite bind_ok by exact Hrun.
    destruct (bool_decide (replace_all reps (read_newlines b) = read_newlines b)).
    + left. munfold. cbn [fst snd]. split; [by destruct s|].
      unfold wrote in *. by rewrite existsb_app, Hw.
    + right. exists b. split; [done|].
      unfold write_text. munfold. cbn [fst snd st_world st_budget]. rewrite Hp.
      cbn [fst snd st_world st_budget app].
      unfold wrote, warned in *. rewrite !existsb_app, Hw. cbn [existsb is_write is_warning orb].
      split_and!; [done | done |]. rewrite !orb_false_r. exact Hfound.
  - left. erewrite bind_silent
      by (unfold path_exists; munfold; cbn; rewrite Hp; reflexivity).
    rewrite bool_decide_eq_true_2 by eauto. cbn [negb].
    erewrite bind_raise by (unfold read_text; munfold; cbn; rewrite Hp; reflexivity).
    by destruct s.
  - left. erewrite bind_silent
      by (unfold path_exists; munfold; cbn; rewrite Hp; reflexivity).
    rewrite bool_decide_eq_false_2 by (intros [? ?]; done). cbn. by destruct s.
Qed.

Lemma patch_file_unwritten filepath reps marker s :
  wrote (patch_file filepath reps marker s).2 = false →
  (patch_file filepath reps marker s).1.2 = s.
Proof.
  intros Hw. destruct (patch_file_outcome filepath reps marker s)
    as [[Hs _]|(b & _ & _ & Hw' & _)]; [done | congruence].
Qed.

(** After a run of [patch_file] that wrote the file and warned about
    nothing, the file has every marker that the first replacement brings
    and that is apart from the patterns of the others. *)
Lemma patch_file_clean_write filepath old1 new1 rest marker m s :
  m ≠ [] → 10 ∉ m → 13 ∉ m →
  contains m new1 = true → forallb (λ r, apart r.1 m) rest = true →
  let out := patch_file filepath ((old1, new1) :: rest) marker s in
  wrote out.2 = true → warned out.2 = false →
  ∃ b', nodes (st_world out.1.2) !! path_join (REPO_DIR (st_world s)) filepath
        = Some (File b')
        ∧ contains m (read_newlines b') = true
        ∧ here (st_world out.1.2) = here (st_world s).
Proof.
  intros Hm H10 H13 Hnew Hrest out Hw Hq. subst out.
  destruct (patch_file_outcome filepath ((old1, new1) :: rest) marker s)
    as [[_ Hw']|(b & Hb & Hs1 & _ & Hfound)]; [congruence|].
  specialize (Hfound Hq). cbv beta iota in Hfound.
  rewrite Hs1. cbn [st_world set_nodes nodes here]. rewrite lookup_insert_eq.
  eexists. split_and!; [reflexivity | | done].
  apply marker_survives_write_read; try done.
  cbn [replace_all]. rewrite Hfound. apply replace_all_keeps; [done|].
  destruct (replace_first_spec old1 new1 _ Hfound) as (p & q & _ & ->).
  destruct (contains_inv _ _ Hnew) as (a & c & ->).
  apply (contains_at _ _ (p ++ a) (c ++ q)). by rewrite <- !app_assoc.
Qed.

Lemma patch_lip_sync_outcome s :
  let path := target_path (st_world s) LipSync in
  let out := patch_lip_sync s in
  (out.1.2 = s ∧ wrote out.2 = false)
  ∨ (∃ b', nodes (st_world out.1.2) !! path = Some (File b')
           ∧ contains (target_marker LipSync) (read_newlines b') = true
           ∧ here (st_world out.1.2) = here (st_world s)).
Proof.
  intros path out. subst out. unfold patch_lip_sync.
  erewrite bind_silent by reflexivity.
  change (path_join (REPO_DIR (st_world s))
            (py "generate_lip_video/gen_lip_sycn_video_jimeng.py")) with path.
  destruct (nodes (st_world s) !! path) as [[b|]|] eqn:Hp.
  - erewrite bind_silent
      by (unfold path_exists; munfold; cbn; rewrite Hp; reflexivity).
    rewrite bool_decide_eq_true_2 by eauto. cbn [negb].
    erewrite bind_silent by (unfold read_text; munfold; cbn; rewrite Hp; reflexivity).
    destruct (contains (py "config.HUOSHAN_ACCESS_KEY") (read_newlines b)).
    { left. by destruct s. }
    cbv zeta.
    destruct (bool_decide (re_sub set_ak_sk_pattern set_ak_sk_replacement (read_newlines b)
                           = read_newlines b)) eqn:Hsame.
    { left. by destruct s. }
    apply bool_decide_eq_false_1 in Hsame.
    right. unfold write_text. munfold. cbn [fst snd st_world st_budget]. rewrite Hp.
    cbn [fst snd st_world st_budget set_nodes nodes here]. rewrite lookup_insert_eq.
    eexists. split_and!; [reflexivity | | done].
    apply marker_survives_write_read;
      [done | by apply (bool_decide_unpack _); vm_compute
            | by apply (bool_decide_unpack _); vm_compute |].
    destruct (re_sub_from_changed set_ak_sk_pattern set_ak_sk_replacement (read_newlines b))
      as [Heq|(pre & post & Heq)]; [done|].
    unfold re_sub. rewrite Heq.
    assert (contains (target_marker LipSync) set_ak_sk_replacement = true) as Hin
      by (vm_compute; reflexivity).
    destruct (contains_inv _ _ Hin) as (a & c & ->).
    apply (contains_at _ _ (pre ++ a) (c ++ post)). by rewrite <- !app_assoc.
  - left. erewrite bind_silent
      by (unfold path_exists; munfold; cbn; rewrite Hp; reflexivity).
    rewrite bool_decide_eq_true_2 by eauto. cbn [negb].
    erewrite bind_raise by (unfold read_text; munfold; cbn; rewrite Hp; reflexivity).
    by destruct s.
  - left. erewrite bind_silent
      by (unfold path_exists; munfold; cbn; rewrite Hp; reflexivity).
    rewrite bool_decide_eq_false_2 by (intros [? ?]; done). cbn. by destruct s.
Qed.

Lemma patch_file_step_outcome filepath old1 new1 rest marker m s :
  m ≠ [] → 10 ∉ m → 13 ∉ m →
  contains m new1 = true → forallb (λ r, apart r.1 m) rest = true →
  let out := patch_file filepath ((old1, new1) :: rest) marker s in
  warned out.2 = false →
  (out.1.2 = s ∧ wrote out.2 = false)
  ∨ (∃ b', nodes (st_world out.1.2) !! path_join (REPO_DIR (st_world s)) filepath
           = Some (File b')
           ∧ contains m (read_newlines b') = true
           ∧ here (st_world out.1.2) = here (st_world s)).
Proof.
  intros Hm H10 H13 Hnew Hrest out Hq.
  destruct (wrote out.2) eqn:Hw.
  - right. by apply (patch_file_clean_write filepath old1 new1 rest marker m s).
  - left. split; [|done]. by apply patch_file_unwritten.
Qed.

Ltac marker_facts :=
  first [ done
        | by apply (bool_decide_unpack _); vm_compute
        | vm_compute; reflexivity ].

(** A step that warns about nothing leaves the state as it is and writes
    nothing, or leaves its target with the marker. *)
Lemma patch_step_outcome (t : target) (s : state) :
  let out := patch_step t s in
  warned out.2 = false →
  (out.1.2 = s ∧ wrote out.2 = false)
  ∨ (∃ b', nodes (st_world out.1.2) !! target_path (st_world s) t = Some (File b')
           ∧ contains (target_marker t) (read_newlines b') = true
           ∧ here (st_world out.1.2) = here (st_world s)).
Proof.
  intros out Hq; subst out. destruct t; cbn [patch_step] in *.
  - (* config.py *)
    revert Hq. unfold patch_config.
    erewrite bind_silent by reflexivity.
    change (path_join (REPO_DIR (st_world s)) (py "config.py"))
      with (target_path (st_world s) Config).
    destruct (nodes (st_world s) !! target_path (st_world s) Config) as [[b|]|] eqn:Hp.
    + erewrite bind_silent by (unfold read_text; munfold; cbn; rewrite Hp; reflexivity).
      destruct (contains (py "ARK_PROVIDER") (read_newlines b)).
      { intros _. left. by destruct s. }
      unfold config_replacements.
      apply patch_file_step_outcome; marker_facts.
    + erewrite bind_raise by (unfold read_text; munfold; cbn; rewrite Hp; reflexivity).
      intros _. left. by destruct s.
    + erewrite bind_raise by (unfold read_text; munfold; cbn; rewrite Hp; reflexivity).
      intros _. left. by destruct s.
  - revert Hq. unfold patch_picture, picture_replacements.
    apply patch_file_step_outcome; marker_facts.
  - revert Hq. unfold patch_video_pipeline, video_pipeline_replacements.
    apply patch_file_step_outcome; marker_facts.
  - revert Hq. unfold patch_call_gemini, call_gemini_replacements.
    apply patch_file_step_outcome; marker_facts.
  - apply patch_lip_sync_outcome.
Qed.

(** C3: a step that finds its marker in the file reports "already patched"
    and leaves the state as it is; so after a first run that warned about
    nothing, a second run changes no file, and where the first run wrote
    the file the second reports "already patched". *)
Theorem patcher_rerun_is_noop (t : target) (s : state) :
  (∀ b, nodes (st_world s) !! target_path (st_world s) t = Some (File b) →
        contains (target_marker t) (read_newlines b) = true →
        patch_step t s = (Ok true, s, [EvPrint (already_patched_line t)]))
  ∧ (let first := patch_step t s in
     warned first.2 = false →
     st_world (patch_step t first.1.2).1.2 = st_world first.1.2
     ∧ (wrote first.2 = true →
        patch_step t first.1.2
        = (Ok true, first.1.2, [EvPrint (already_patched_line t)]))).
Proof.
  split.
  - intros b Hb Hc. destruct s as [w bud]. by apply (patch_step_marker t w b).
  - intros first Hq. subst first.
    destruct (patch_step_outcome t s Hq) as [[Hs Hw]|(b' & Hb' & Hc & Hh)].
    + split; [by rewrite Hs, Hs | congruence].
    + set (s1 := (patch_step t s).1.2) in *.
      assert (target_path (st_world s1) t = target_path (st_world s) t) as Hpath.
      { unfold target_path, REPO_DIR. by rewrite Hh. }
      rewrite <- Hpath in Hb'.
      assert (patch_step t s1 = (Ok true, s1, [EvPrint (already_patched_line t)])) as Hrun.
      { destruct s1 as [w1 bud1]. by apply (patch_step_marker t w1 b'). }
      split; [by rewrite Hrun | done].
Qed.

Lemma patcher_rerun_is_noop_witness :
  let first := patch_step CallGemini (start sample_repo) in
  wrote first.2 = true
  ∧ patch_step CallGemini first.1.2
    = (Ok true, first.1.2, [EvPrint (already_patched_line CallGemini)]).
Proof.
  intros first.
  assert (wrote first.2 = true) as Hw by (vm_compute; reflexivity).
  split; [exact Hw|].
  refine (proj2 (proj2 (patcher_rerun_is_noop CallGemini (start sample_repo)) _) Hw).
  vm_compute. reflexivity.
Defined.

(** ** Saving the settings *)

Lemma set_key_run key value s :
  set_key key value s
  = (Ok (), State (set_dotenv (Some (<[key := value]> (default ∅ (dotenv (st_world s)))))
                     (st_world s)) (st_budget s), []).
Proof. reflexivity. Qed.

Lemma save_values_ok kvs s :
  ∃ w', save_values kvs s = (Ok (), State w' (st_budget s), []).
Proof.
  revert s. induction kvs as [|[key val] kvs IH]; intros s.
  - by exists (st_world s); destruct s.
  - cbn [save_values]. destruct (supplied val).
    + erewrite bind_ok by apply set_key_run.
      destruct (IH (State (set_dotenv (Some (<[key := strip (default [] val)]>
                              (default ∅ (dotenv (st_world s))))) (st_world s))
                      (st_budget s))) as [w' ->].
      by exists w'.
    + erewrite bind_silent by reflexivity. apply IH.
Qed.

(** A key that only comes with blank values keeps its binding. *)
Lemma save_values_keeps kvs s k :
  (∀ v, (k, v) ∈ kvs → supplied v = false) →
  saved (st_world (save_values kvs s).1.2) k = saved (st_world s) k.
Proof.
  revert s. induction kvs as [|[key val] kvs IH]; intros s Hk; [done|].
  cbn [save_values]. destruct (supplied val) eqn:Hv.
  - assert (key ≠ k) as Hne.
    { intros ->. specialize (Hk val (list_elem_of_here _ _)). congruence. }
    unfold mbind, M_bind. rewrite set_key_run.
    set (s1 := State _ _).
    specialize (IH s1 (λ v Hin, Hk v (list_elem_of_further _ _ _ Hin))).
    destruct (save_values kvs s1) as [[r s2] t2]. cbn [fst snd] in *.
    rewrite IH. subst s1. unfold saved. cbn. by rewrite lookup_insert_ne.
  - erewrite bind_silent by reflexivity.
    apply IH. intros v Hin. apply Hk. by apply list_elem_of_further.
Qed.


Lemma provider_key_fresh : py "ARK_PROVIDER" ∉ all_keys.
Proof. apply (bool_decide_unpack _). vm_compute. exact I. Qed.

(** What [save_env_settings] leaves in the settings file: the provider that
    line 51 computes, then the values of the loop. *)
Lemma save_env_settings_world provider values s :
  settings_writable (st_world s) →
  st_world (save_env_settings provider values s).1.2
  = st_world
      (save_values (zip all_keys values)
         (State (set_dotenv
                   (Some (<[py "ARK_PROVIDER" :=
                              if truthy provider then strip (default [] provider)
                              else py "byteplus"]>
                            (default ∅ (dotenv (st_world s)))))
                   (st_world s))
            (st_budget s))).1.2.
Proof.
  intros Hready. unfold save_env_settings.
  erewrite bind_silent by reflexivity.
  set (value := if truthy provider then _ else _).
  destruct s as [[h l e n d] bud]. cbn [st_world st_budget dotenv nodes] in *.
  destruct d as [m|].
  - erewrite bind_ok_world by reflexivity.
    erewrite bind_ok_world by apply set_key_run.
    by apply bind_world_pure.
  - destruct Hready as [Hd|Hdir]; [done|]. cbn [nodes] in Hdir.
    rewrite bool_decide_eq_true_2 by done. rewrite Hdir.
    erewrite bind_ok_world by reflexivity.
    erewrite bind_ok_world by apply set_key_run.
    by apply bind_world_pure.
Qed.

(** The provider selector that a call writes. *)
Lemma saved_provider provider values s :
  settings_writable (st_world s) →
  saved (st_world (save_env_settings provider values s).1.2) (py "ARK_PROVIDER")
  = Some (if truthy provider then strip (default [] provider) else py "byteplus").
Proof.
  intros Hready. rewrite save_env_settings_world by done. rewrite save_values_keeps.
  - unfold saved. cbn. by rewrite lookup_insert_eq.
  - intros v Hin. apply elem_of_zip_l in Hin. by destruct provider_key_fresh.
Qed.


(** C8 fails on the code for a provider of white space only: line 51 tests
    the provider before stripping it and writes the empty string. *)
Theorem blank_provider_saved_empty :
  let w := sample_host (sample_config nl) (py "/tmp/song.mp3") in
  let out := save_env_settings (Some (py "  ")) [] (start w) in
  saved (st_world out.1.2) (py "ARK_PROVIDER") = Some []
  ∧ ∃ rest, out.1.1 = Ok (py "Provider: " ++ nl ++ rest).
Proof.
  split.
  - rewrite saved_provider by (by left). reflexivity.
  - eexists. vm_compute. reflexivity.
Qed.

(** ** A program logic for runs *)

Section logic.
Context (I : world → Prop) (E : event → Prop).

Lemma sat_ret {A} (a : A) (Q : A → Prop) : Q a → sat I E (mret a) Q.
Proof. intros Hq s Hs. cbn. split_and!; [done | constructor | by intros ? [= <-]]. Qed.

Lemma sat_raise {A} e (Q : A → Prop) : sat I E (raise e) Q.
Proof. intros s Hs. cbn. split_and!; [done | constructor | done]. Qed.

Lemma sat_bind {A B} (m : M A) (f : A → M B) (Q : A → Prop) (Q' : B → Prop) :
  sat I E m Q → (∀ a, Q a → sat I E (f a) Q') → sat I E (m ≫= f) Q'.
Proof.
  intros Hm Hf s Hs. destruct (Hm s Hs) as (Hi & He & Hq).
  unfold mbind, M_bind. destruct (m s) as [[[a|e] s1] t1]; cbn in *.
  - destruct (Hf a (Hq a eq_refl) s1 Hi) as (Hi2 & He2 & Hq2).
    destruct (f a s1) as [[r2 s2] t2]; cbn in *.
    split_and!; [done | by apply Forall_app | done].
  - split_and!; done.
Qed.

Lemma sat_weaken {A} (m : M A) (Q Q' : A → Prop) :
  sat I E m Q → (∀ a, Q a → Q' a) → sat I E m Q'.
Proof. intros Hm Hq s Hs. destruct (Hm s Hs) as (? & ? & ?). naive_solver. Qed.

Lemma sat_get_world : sat I E get_world I.
Proof. intros s Hs. cbn. split_and!; [done | constructor | by intros ? [= <-]]. Qed.

Lemma sat_modify_world f :
  (∀ w, I w → I (f w)) → sat I E (modify_world f) (λ _, True).
Proof. intros Hf s Hs. cbn. split_and!; [by apply Hf | constructor | done]. Qed.

Lemma sat_emit e : E e → sat I E (emit e) (λ _, True).
Proof. intros He s Hs. cbn. split_and!; [done | by repeat constructor | done]. Qed.

Lemma sat_yield x : E (EvYield x) → sat I E (yield x) (λ _, True).
Proof.
  intros He s Hs. unfold yield.
  destruct (st_budget s) as [[|[|n]]|]; cbn; split_and!; try done; by repeat constructor.
Qed.

Lemma sat_try_finally {A} (body : M A) (handler : M unit) (Q : A → Prop) Q' :
  sat I E body Q → sat I E handler Q' → sat I E (try_finally body handler) Q.
Proof.
  intros Hb Hh s Hs. destruct (Hb s Hs) as (Hi & He & Hq).
  unfold try_finally. destruct (body s) as [[r s1] t1]; cbn in *.
  destruct (Hh s1 Hi) as (Hi2 & He2 & _).
  destruct (handler s1) as [[[[]|e] s2] t2]; cbn in *.
  - split_and!; [done | by apply Forall_app | done].
  - split_and!; [done | by apply Forall_app | done].
Qed.

Lemma sat_path_exists p : sat I E (path_exists p) (λ _, True).
Proof. intros s Hs. cbn. split_and!; [done | constructor | done]. Qed.

(** Invariants that hold whatever happens to regular files. *)
Hypothesis I_write : ∀ w p c,
  I w → nodes w !! p ≠ Some Dir → I (set_nodes (insert p (File c)) w).
Hypothesis I_delete : ∀ w p,
  I w → nodes w !! p ≠ Some Dir → I (set_nodes (delete p) w).

Lemma sat_write_text p text : E (EvWrite p text) → sat I E (write_text p text) (λ _, True).
Proof.
  intros He s Hs. unfold write_text. munfold. cbn.
  destruct (nodes (st_world s) !! p) as [[c|]|] eqn:Hp; cbn.
  - split_and!; [apply I_write; [done | by rewrite Hp] | by repeat constructor | done].
  - split_and!; [done | constructor | done].
  - split_and!; [apply I_write; [done | by rewrite Hp] | by repeat constructor | done].
Qed.

Lemma sat_remove p : E (EvRemove p) → sat I E (remove p) (λ _, True).
Proof.
  intros He s Hs. unfold remove. munfold. cbn.
  destruct (nodes (st_world s) !! p) as [[c|]|] eqn:Hp; cbn.
  - split_and!; [apply I_delete; [done | by rewrite Hp] | by repeat constructor | done].
  - split_and!; [done | constructor | done].
  - split_and!; [done | constructor | done].
Qed.

Lemma I_child_op op w : I w → I (set_nodes (child_op op) w).
Proof.
  intros Hw. pose proof (I_write w op.1) as Hwr. pose proof (I_delete w op.1) as Hde.
  unfold set_nodes, child_op in *.
  destruct (nodes w !! op.1) as [[c|]|] eqn:Hp.
  - destruct op.2; [apply Hwr | apply Hde]; done.
  - by destruct w.
  - destruct op.2; [apply Hwr | apply Hde]; done.
Qed.

Lemma I_child_ops ops w : I w → I (set_nodes (child_ops ops) w).
Proof.
  revert w. induction ops as [|op ops IH]; intros w Hw.
  - by destruct w.
  - specialize (IH _ (I_child_op op w Hw)). by destruct w.
Qed.

Lemma sat_popen argv cwd env c :
  E (EvSpawn argv cwd env) → sat I E (popen argv cwd env c) (λ _, True).
Proof.
  intros He. unfold popen. eapply sat_bind; [by apply sat_emit|].
  intros _ _. destruct (spawn_error c); [apply sat_raise | by apply sat_ret].
Qed.

Lemma sat_stream out log :
  (∀ y, E (EvYield (log ++ y))) →
  sat I E (stream out log) (λ log', ∃ y, log' = log ++ y).
Proof.
  revert log. induction out as [|[ops line] out IH]; intros log He; cbn.
  - apply sat_ret. exists []. by rewrite app_nil_r.
  - eapply sat_bind; [apply sat_modify_world, I_child_ops|]. intros _ _.
    eapply sat_bind; [apply sat_yield, He|]. intros _ _.
    eapply sat_weaken.
    + apply IH. intros y. rewrite <- app_assoc. apply He.
    + intros log' [y ->]. exists (line ++ y). by rewrite app_assoc.
Qed.

Lemma sat_stream_child c log :
  (∀ y, E (EvYield (log ++ y))) →
  sat I E (stream_child c log) (λ log', ∃ y, log' = log ++ y).
Proof.
  intros He. unfold stream_child. eapply sat_bind; [by apply sat_stream|].
  intros log' Hlog. destruct (read_error c); [apply sat_raise | by apply sat_ret].
Qed.

Lemma sat_wait c : sat I E (wait c) (λ code, code = returncode c).
Proof.
  unfold wait. eapply sat_bind; [apply sat_modify_world, I_child_ops|].
  intros _ _. by apply sat_ret.
Qed.

(** Invariants that fix where the application lives. *)
Context (w0 : world).
Hypothesis I_here : ∀ w, I w → here w = here w0.

Lemma I_gen_script_path w : I w → gen_script_path w = gen_script_path w0.
Proof. intros Hw. unfold gen_script_path, AUTOMV_DIR. by rewrite (I_here w Hw). Qed.

Lemma I_config_path w : I w → config_path w = config_path w0.
Proof. intros Hw. unfold config_path, AUTOMV_DIR. by rewrite (I_here w Hw). Qed.

Lemma I_automv_dir w : I w → AUTOMV_DIR w = AUTOMV_DIR w0.
Proof. intros Hw. unfold AUTOMV_DIR. by rewrite (I_here w Hw). Qed.

(** The stages: every snapshot extends the log they start from; the events
    of stage 2 only occur after stage 1 has returned zero. *)
Lemma sat_stages st1 st2 run_env project_dir music_name lip_sync resolution log :
  (∀ y, E (EvYield (log ++ y))) →
  E (EvSpawn stage1_argv (AUTOMV_DIR w0) run_env) →
  (returncode st1 = 0%Z →
   E (EvWrite (gen_script_path w0) (_build_gen_script music_name lip_sync resolution))
   ∧ E (EvSpawn stage2_argv (AUTOMV_DIR w0) run_env)
   ∧ E (EvRemove (gen_script_path w0))) →
  sat I E
    (stages st1 st2 run_env project_dir music_name lip_sync resolution log)
    (λ _, True).
Proof.
  intros Hy Hs1 Hs2. unfold stages.
  eapply sat_bind; [apply sat_get_world|]. intros w Hw.
  rewrite (I_gen_script_path w Hw), (I_automv_dir w Hw).
  eapply sat_bind; [apply sat_yield; rewrite <- ?app_assoc; apply Hy|]. intros _ _.
  eapply sat_bind; [by apply sat_popen|]. intros _ _.
  eapply sat_bind.
  { apply sat_stream_child. intros y. rewrite <- ?app_assoc. apply Hy. }
  intros log1 [y1 ->].
  eapply sat_bind; [by apply sat_wait|]. intros code ->.
  destruct (bool_decide (returncode st1 = 0%Z)) eqn:Hrc; cbn [negb].
  2:{ apply sat_yield. rewrite <- ?app_assoc. apply Hy. }
  apply bool_decide_eq_true_1 in Hrc. destruct (Hs2 Hrc) as (Hw2 & Hsp2 & Hrm).
  eapply sat_bind; [apply sat_yield; rewrite <- ?app_assoc; apply Hy|]. intros _ _.
  eapply sat_bind; [by apply sat_write_text|]. intros _ _.
  eapply sat_bind; [apply sat_yield; rewrite <- ?app_assoc; apply Hy|]. intros _ _.
  eapply sat_bind; [by apply sat_popen|]. intros _ _.
  eapply sat_bind.
  { apply sat_stream_child. intros y. rewrite <- ?app_assoc. apply Hy. }
  intros log2 [y2 ->].
  eapply sat_bind; [by apply sat_wait|]. intros code2 _.
  destruct (negb (bool_decide (code2 = 0%Z))).
  { apply sat_yield. rewrite <- ?app_assoc. apply Hy. }
  eapply sat_bind; [by apply sat_path_exists|]. intros found _.
  eapply sat_bind.
  { destruct found; [by apply sat_remove | by apply sat_ret]. }
  intros _ _.
  eapply sat_bind; [by apply sat_path_exists|]. intros found2 _.
  apply sat_yield. destruct found2; rewrite <- ?app_assoc; apply Hy.
Qed.

(** Lines 145 to 233. *)
Lemma sat_patched_scope st1 st2 run_env project_dir music_name lip_sync resolution log :
  (∀ y, E (EvYield (log ++ y))) →
  (∀ text, E (EvWrite (config_path w0) text)) →
  E (EvSpawn stage1_argv (AUTOMV_DIR w0) run_env) →
  (returncode st1 = 0%Z →
   E (EvWrite (gen_script_path w0) (_build_gen_script music_name lip_sync resolution))
   ∧ E (EvSpawn stage2_argv (AUTOMV_DIR w0) run_env)
   ∧ E (EvRemove (gen_script_path w0))) →
  sat I E
    (patched_scope st1 st2 run_env project_dir music_name lip_sync resolution log)
    (λ _, True).
Proof.
  intros Hy Hc Hs1 Hs2. unfold patched_scope.
  eapply sat_bind; [apply sat_get_world|]. intros w Hw.
  rewrite (I_config_path w Hw).
  eapply sat_bind with (Q := λ _, True).
  { unfold read_text. eapply sat_bind; [apply sat_get_world|]. intros w1 _.
    destruct (nodes w1 !! config_path w0) as [[c|]|];
      [by apply sat_ret | apply sat_raise | apply sat_raise]. }
  intros content _.
  eapply sat_bind; [by apply sat_write_text|]. intros _ _.
  eapply sat_try_finally; [by apply sat_stages | by apply sat_write_text].
Qed.
End logic.

Lemma path_join_rel_inj a b b' :
  startswith (py "/") b = false → startswith (py "/") b' = false →
  path_join a b = path_join a b' → b = b'.
Proof.
  unfold path_join. intros -> ->. destruct a as [|c a]; [done|].
  destruct (bool_decide _); intros H.
  - by apply app_inv_head in H.
  - by apply app_inv_head, app_inv_head in H.
Qed.


Section run_logic.
Context (I : world → Prop) (E : event → Prop) (w0 : world).
Hypothesis I_nodes : ∀ w f, I w → I (set_nodes f w).
Hypothesis I_here : ∀ w, I w → here w = here w0.

Lemma sat_makedirs p : E (EvMakedirs p) → sat I E (makedirs p) (λ _, True).
Proof.
  intros He. unfold makedirs.
  eapply sat_bind; [by apply sat_emit|]. intros _ _.
  eapply sat_bind; [apply sat_get_world|]. intros w _.
  destruct (nodes w !! p) as [[c|]|]; [apply sat_raise | by apply sat_ret |].
  destruct (existsb _ _); [apply sat_raise|].
  apply sat_modify_world. intros w1. apply I_nodes.
Qed.

Lemma sat_copy2 src dst : (∀ target, E (EvCopy src target)) → sat I E (copy2 src dst) (λ _, True).
Proof.
  intros He. unfold copy2.
  eapply sat_bind; [apply sat_get_world|]. intros w _. cbv zeta.
  destruct (bool_decide _); [apply sat_raise|].
  destruct (nodes w !! src) as [[b|]|]; [| apply sat_raise | apply sat_raise].
  set (target := match nodes w !! dst with Some Dir => _ | _ => _ end).
  assert (sat I E (emit (EvCopy src target);;
                   modify_world (set_nodes (insert target (File b)))) (λ _, True)) as Hok.
  { eapply sat_bind; [by apply sat_emit|]. intros _ _.
    apply sat_modify_world. intros w1. apply I_nodes. }
  destruct (nodes w !! target) as [[c|]|]; [done | apply sat_raise | done].
Qed.

Lemma sat_prepare_and_run st1 st2 env audio_file music_name provider lip_sync resolution :
  (∀ p, E (EvMakedirs p)) →
  (∀ src dst, E (EvCopy src dst)) →
  E (EvYield unsupported_audio_error) →
  (∀ y, E (EvYield (py "=== AutoMV Pipeline ===" ++ y))) →
  (∀ text, E (EvWrite (config_path w0) text)) →
  (∀ run_env, E (EvSpawn stage1_argv (AUTOMV_DIR w0) run_env)) →
  (returncode st1 = 0%Z →
   E (EvWrite (gen_script_path w0) (_build_gen_script music_name lip_sync resolution))
   ∧ (∀ run_env, E (EvSpawn stage2_argv (AUTOMV_DIR w0) run_env))
   ∧ E (EvRemove (gen_script_path w0))) →
  sat I E
    (prepare_and_run st1 st2 env audio_file music_name provider lip_sync resolution)
    (λ _, True).
Proof.
  intros Hmk Hcp Hun Hy Hc Hs1 Hs2. unfold prepare_and_run.
  eapply sat_bind; [apply sat_get_world|]. intros w Hw.
  eapply sat_bind; [by apply sat_makedirs|]. intros _ _.
  destruct (negb _); [by apply sat_yield|].
  eapply sat_bind; [by apply sat_copy2|]. intros _ _.
  eapply sat_bind; [apply sat_yield; rewrite <- ?app_assoc; apply Hy|]. intros _ _.
  apply sat_patched_scope with (w0 := w0); try done.
  - intros w1 p c Hw1 _. by apply I_nodes.
  - intros w1 p Hw1 _. by apply I_nodes.
  - intros y. rewrite <- ?app_assoc. apply Hy.
  - intros Hrc. destruct (Hs2 Hrc) as (? & ? & ?). done.
Qed.

Lemma sat_generate st1 st2 audio_file music_name lip_sync resolution :
  (∀ p, E (EvMakedirs p)) →
  (∀ src dst, E (EvCopy src dst)) →
  E (EvYield (py "Error: Please upload a music file.")) →
  (∀ y, E (EvYield (py "Error: Required API keys not configured: " ++ y))) →
  E (EvYield lip_sync_warning) →
  E (EvYield unsupported_audio_error) →
  (∀ y, E (EvYield (py "=== AutoMV Pipeline ===" ++ y))) →
  (∀ text, E (EvWrite (config_path w0) text)) →
  (∀ run_env, E (EvSpawn stage1_argv (AUTOMV_DIR w0) run_env)) →
  (returncode st1 = 0%Z →
   (∀ name mode, E (EvWrite (gen_script_path w0) (_build_gen_script name mode resolution)))
   ∧ (∀ run_env, E (EvSpawn stage2_argv (AUTOMV_DIR w0) run_env))
   ∧ E (EvRemove (gen_script_path w0))) →
  sat I E (generate_music_video st1 st2 audio_file music_name lip_sync resolution)
    (λ _, True).
Proof.
  intros Hmk Hcp Hup Hkeys Hwarn Hun Hy Hc Hs1 Hs2. unfold generate_music_video.
  destruct (negb (truthy audio_file)); [by apply sat_yield|].
  rewrite bool_decide_eq_false_2 by apply sanitized_name_nonempty.
  eapply sat_bind with (Q := λ _, True).
  { unfold load_env. eapply sat_bind; [apply sat_get_world|]. intros w _. by apply sat_ret. }
  intros env _. cbv zeta.
  destruct (negb (bool_decide (_ = []))).
  { apply sat_yield. rewrite <- ?app_assoc. apply Hkeys. }
  assert (∀ mode, sat I E
    (prepare_and_run st1 st2 env (default [] audio_file)
       (sanitize_music_name (py_or music_name (py "untitled")))
       (default (py "byteplus") (env !! py "ARK_PROVIDER")) mode resolution) (λ _, True))
    as Hrun.
  { intros mode. apply sat_prepare_and_run; try done.
    intros Hrc. destruct (Hs2 Hrc) as (? & ? & ?). done. }
  destruct (_ && _); [|apply Hrun].
  eapply sat_bind; [by apply sat_yield|]. intros _ _. apply Hrun.
Qed.
End run_logic.

Lemma sat_load_env (I : world → Prop) (E : event → Prop) :
  sat I E load_env (λ env, ∃ w, I w ∧ env = default ∅ (dotenv w)).
Proof.
  unfold load_env. eapply sat_bind; [apply sat_get_world|]. intros w Hw.
  apply sat_ret. by exists w.
Qed.

(** ** The configuration guard *)

(** The stages leave the configuration a regular file and the platform as
    it is. *)
Lemma stages_keep_config st1 st2 run_env project_dir music_name lip_sync resolution log s :
  nodes (st_world s) !! config_path (st_world s) ≠ Some Dir →
  let s' := (stages st1 st2 run_env project_dir music_name lip_sync resolution log s).1.2 in
  here (st_world s') = here (st_world s)
  ∧ linesep (st_world s') = linesep (st_world s)
  ∧ nodes (st_world s') !! config_path (st_world s) ≠ Some Dir.
Proof.
  intros Hn. set (w := st_world s).
  set (I := λ w0 : world,
         here w0 = here w ∧ linesep w0 = linesep w
         ∧ nodes w0 !! config_path w ≠ Some Dir).
  assert (sat I (λ _, True)
            (stages st1 st2 run_env project_dir music_name lip_sync resolution log)
            (λ _, True)) as Hsat.
  { apply (sat_stages I (λ _, True)) with (w0 := w); try done.
    - intros w0 p c (Hh & Hl & Hn0) Hp. split_and!; [by destruct w0 | by destruct w0 |].
      cbn. destruct (decide (p = config_path w)) as [->|Hne].
      + by rewrite lookup_insert_eq.
      + by rewrite lookup_insert_ne.
    - intros w0 p (Hh & Hl & Hn0) Hp. split_and!; [by destruct w0 | by destruct w0 |].
      cbn. destruct (decide (p = config_path w)) as [->|Hne].
      + by rewrite lookup_delete_eq.
      + by rewrite lookup_delete_ne.
    - by intros w0 (Hh & _). }
  destruct (Hsat s) as (Hi & _ & _); done.
Qed.

(** What the [finally] clause leaves: whatever happens inside the scope,
    when it closes the configuration file holds the text that line 147 read,
    written in text mode.  Those are the bytes of the original only when the
    original has no carriage return and the line separator is a line feed. *)
Theorem patched_scope_restores_config_text
    (st1 st2 : child) (run_env : gmap pystr pystr)
    (project_dir music_name lip_sync resolution log : pystr) (s : state) (b : pystr) :
  nodes (st_world s) !! config_path (st_world s) = Some (File b) →
  let w := st_world s in
  let w' := st_world
    (patched_scope st1 st2 run_env project_dir music_name lip_sync resolution log s).1.2 in
  nodes w' !! config_path w
    = Some (File (write_newlines (linesep w) (read_newlines b)))
  ∧ (linesep w = nl → 13 ∉ b → nodes w' !! config_path w = Some (File b)).
Proof.
  destruct s as [w bud]. intros Hb. cbn [st_world] in *. cbn zeta.
  match goal with
  | |- nodes ?x !! _ = _ ∧ _ => set (w' := x)
  end.
  assert (nodes w' !! config_path w
          = Some (File (write_newlines (linesep w) (read_newlines b)))) as Hfinal.
  2:{ split; [done|]. intros Hsep Hcr.
      by rewrite Hfinal, Hsep, write_newlines_posix, read_newlines_no_cr. }
  subst w'. unfold patched_scope.
  erewrite bind_ok by reflexivity. cbn [st_world].
  erewrite bind_ok by (unfold read_text; munfold; cbn; rewrite Hb; reflexivity).
  set (patched := re_sub _ _ _).
  erewrite bind_ok by (unfold write_text; munfold; cbn; rewrite Hb; reflexivity).
  set (s1 := State _ _).
  destruct (stages_keep_config st1 st2 run_env project_dir music_name lip_sync
              resolution log s1) as (_ & Hl & Hn).
  { subst s1. cbn. by rewrite lookup_insert_eq. }
  change (config_path (st_world s1)) with (config_path w) in Hn.
  change (linesep (st_world s1)) with (linesep w) in Hl.
  unfold try_finally.
  destruct (stages _ _ _ _ _ _ _ _ s1) as [[r s2] t2]. cbn in Hl, Hn.
  unfold write_text. munfold. cbn.
  destruct (nodes (st_world s2) !! config_path w) as [[c|]|] eqn:Hc; try done.
  - destruct r; cbn; rewrite lookup_insert_eq, Hl; done.
  - destruct r; cbn; rewrite lookup_insert_eq, Hl; done.
Qed.

Lemma patched_scope_restores_config_text_witness :
  let s := start (sample_host (sample_config nl) (py "/tmp/song.mp3")) in
  nodes (st_world
    (patched_scope (sample_stage 1) (sample_stage 0) ∅ (py "/app/AutoMV_repo/result/demo")
       (py "demo") (py "None") (py "480p") [] s).1.2)
    !! py "/app/AutoMV_repo/config.py"
  = Some (File (sample_config nl)).
Proof.
  intros s.
  refine (proj2 (patched_scope_restores_config_text (sample_stage 1) (sample_stage 0) ∅
           (py "/app/AutoMV_repo/result/demo") (py "demo") (py "None") (py "480p") [] s
           (sample_config nl) _) _ _).
  - vm_compute. reflexivity.
  - reflexivity.
  - apply (bool_decide_unpack _). vm_compute. exact I.
Defined.

(** C1 fails on the code: the configuration is read on line 147 and written
    back on lines 231 to 233 in text mode, so a run on a configuration file
    with CRLF line ends leaves it with LF line ends, not with the bytes it
    had. *)
Theorem crlf_config_not_byte_identical :
  let w := sample_host (sample_config [13; 10]) (py "/tmp/song.mp3") in
  let after :=
    st_world (run (generate_music_video (sample_stage 0) (sample_stage 0)
                     (Some (py "/tmp/song.mp3")) (Some (py "demo")) (py "None") (py "480p"))
                w None).1.2 in
  nodes w !! config_path w = Some (File (sample_config [13; 10]))
  ∧ nodes after !! config_path w = Some (File (sample_config [10]))
  ∧ nodes after !! config_path w ≠ nodes w !! config_path w.
Proof.
  vm_compute. split_and!; [reflexivity | reflexivity | discriminate].
Qed.

(** ** Validation of the inputs *)

Ltac differ :=
  let H := fresh in
  intros H; injection H as H; vm_compute in H; discriminate H.

(** C10: sanitising keeps the length, so the sanitised name is never empty
    and no run yields the invalid-name error. *)
Theorem invalid_name_branch_unreachable :
  (∀ name, length (sanitize_music_name name) = length name)
  ∧ (∀ music_name, sanitize_music_name (py_or music_name (py "untitled")) ≠ [])
  ∧ (∀ st1 st2 audio_file music_name lip_sync resolution w budget,
       EvYield invalid_name_error ∉
         (run (generate_music_video st1 st2 audio_file music_name lip_sync resolution)
            w budget).2).
Proof.
  split_and!; [apply sanitize_length | apply sanitized_name_nonempty |].
  intros st1 st2 audio_file music_name lip_sync resolution w budget Hin.
  assert (Forall (λ e, e ≠ EvYield invalid_name_error)
            (run (generate_music_video st1 st2 audio_file music_name lip_sync resolution)
               w budget).2) as Hall.
  { apply run_events. intros s Hs.
    apply (sat_generate (λ w', here w' = here w) (λ e, e ≠ EvYield invalid_name_error) w);
      try done; try differ; try (intros; differ).
    by rewrite Hs. }
  rewrite Forall_forall in Hall. by apply (Hall _ Hin).
Qed.

(** With an extension other than the two supported ones, the run makes the
    project directory and only then yields the error. *)
Lemma unsupported_audio_after_makedirs
    st1 st2 env audio_file music_name provider lip_sync resolution s :
  lower (splitext_ext audio_file) ∉ [py ".mp3"; py ".wav"] →
  prepare_and_run st1 st2 env audio_file music_name provider lip_sync resolution s
  = (makedirs (path_join (RESULT_DIR (st_world s)) music_name);;
     yield unsupported_audio_error) s.
Proof.
  intros Hext. unfold prepare_and_run.
  erewrite bind_silent by reflexivity. cbv zeta.
  by rewrite bool_decide_eq_false_2.
Qed.

(** C2 fails on the code: a run on an [.ogg] file with valid settings makes
    the project directory before it yields the error. *)
Theorem unsupported_audio_creates_project_dir :
  let w := sample_host (sample_config nl) (py "/tmp/song.ogg") in
  let out :=
    run (generate_music_video (sample_stage 0) (sample_stage 0)
           (Some (py "/tmp/song.ogg")) (Some (py "demo")) (py "None") (py "480p"))
      w None in
  out.2 = [EvMakedirs (py "/app/AutoMV_repo/result/demo"); EvYield unsupported_audio_error]
  ∧ nodes w !! py "/app/AutoMV_repo/result/demo" = None
  ∧ nodes (st_world out.1.2) !! py "/app/AutoMV_repo/result/demo" = Some Dir
  ∧ nodes w !! py "/app/AutoMV_repo/result" = None
  ∧ nodes (st_world out.1.2) !! py "/app/AutoMV_repo/result" = Some Dir.
Proof. vm_compute. split_and!; reflexivity. Qed.

(** ** The provider without lip-sync *)








(** ** Stage 1 fails *)








Lemma quiet_ret {A} (a : A) : quiet (mret a).
Proof. intros s Hs. cbn. split; [constructor | done]. Qed.

Lemma quiet_raise {A} e : quiet (raise e : M A).
Proof. intros s Hs. cbn. split; [constructor | done]. Qed.

Lemma quiet_bind {A B} (m : M A) (f : A → M B) :
  quiet m → (∀ a, quiet (f a)) → quiet (m ≫= f).
Proof.
  intros Hm Hf s Hs. unfold mbind, M_bind. destruct (Hm s Hs) as [H1 H2].
  destruct (m s) as [[[a|e] s1] t1]; cbn [fst snd] in *; [|done].
  destruct (Hf a s1 H2) as [H3 H4]. destruct (f a s1) as [[r s2] t2]. cbn [fst snd] in *.
  split; [by apply Forall_app | done].
Qed.

Lemma quiet_yield x : quiet (yield x).
Proof.
  intros s Hs. unfold yield. rewrite Hs. cbn. split; [by repeat constructor | done].
Qed.

Lemma quiet_get_world : quiet get_world.
Proof. intros s Hs. cbn. split; [constructor | done]. Qed.

Lemma quiet_modify_world f : quiet (modify_world f).
Proof. intros s Hs. cbn. split; [constructor | done]. Qed.

Lemma quiet_emit e : is_spawn e = false → quiet (emit e).
Proof. intros He s Hs. cbn. split; [by repeat constructor | done]. Qed.



Lemma quiet_read_text p : quiet (read_text p).
Proof.
  unfold read_text. apply quiet_bind; [apply quiet_get_world|]. intros w.
  destruct (nodes w !! p) as [[c|]|]; [apply quiet_ret | apply quiet_raise..].
Qed.

Lemma quiet_write_text p text : quiet (write_text p text).
Proof.
  unfold write_text. apply quiet_bind; [apply quiet_get_world|]. intros w.
  assert (quiet (emit (EvWrite p text);;
            modify_world (set_nodes (insert p (File (write_newlines (linesep w) text))))))
    as Hok.
  { apply quiet_bind; [by apply quiet_emit|]. intros _. apply quiet_modify_world. }
  destruct (nodes w !! p) as [[c|]|]; [done | apply quiet_raise | done].
Qed.

Lemma quiet_stream out log : quiet (stream out log).
Proof.
  revert log. induction out as [|[ops line] out IH]; intros log; cbn.
  - apply quiet_ret.
  - apply quiet_bind; [apply quiet_modify_world|]. intros _.
    apply quiet_bind; [apply quiet_yield|]. intros _. apply IH.
Qed.
















Arguments stage1_failed_line : simpl never.






(** ** The project store *)

Lemma format_1f_seconds {F} (ops : builtins F) v :
  is_seconds ops v → ∃ text, format_1f ops v = inr text.
Proof.
  destruct v as [|b|z|x|s|l|d]; cbn; try done.
  - intros [x ->]. by eexists.
  - intros [x ->]. by eexists.
  - by eexists.
Qed.

Lemma format_segment_ok {F} (ops : builtins F) seg :
  segment_ok ops seg → ∃ row, format_segment ops (JDict seg) = inr row.
Proof.
  intros [Hs He]. unfold format_segment. cbn [json_get bind_err].
  destruct (format_1f_seconds ops _ Hs) as [start ->].
  destruct (format_1f_seconds ops _ He) as [end_ ->].
  cbn [bind_err]. by eexists.
Qed.

Lemma concat_rows_total {A B} (f : A → lookup_error + list B) l :
  (∀ x, ∃ ys, f x = inr ys) → ∃ zs, concat_rows f l = inr zs.
Proof.
  intros Hf. induction l as [|x l [zs IH]]; cbn; [by eexists|].
  destruct (Hf x) as [ys ->]. cbn. rewrite IH. cbn. by eexists.
Qed.

Lemma segment_keyframes_total w picture_dir seg_dir :
  ∃ ys, segment_keyframes w picture_dir seg_dir = inr ys.
Proof.
  unfold segment_keyframes, sorted_listdir.
  destruct (nodes w !! path_join picture_dir seg_dir) as [[c|]|]; cbn; by eexists.
Qed.

Lemma load_keyframes_total w picture_dir :
  (∀ c, nodes w !! picture_dir ≠ Some (File c)) →
  ∃ keyframes, load_keyframes w picture_dir = inr keyframes.
Proof.
  intros Hp. unfold load_keyframes, sorted_listdir.
  destruct (nodes w !! picture_dir) as [[c|]|]; cbn.
  - by destruct (Hp c).
  - apply concat_rows_total. intros x. apply segment_keyframes_total.
  - by eexists.
Qed.

(** C9: a project whose [story.json] holds two segment objects and that has
    no [label.json] loads with a storyboard of the two formatted entries and
    the placeholder for the characters. *)
Theorem load_project_two_segments {F} (ops : builtins F) (w : world)
    (name b : pystr) (seg1 seg2 : list (pystr * json F)) :
  name ≠ [] →
  let project_dir := path_join (RESULT_DIR w) name in
  nodes w !! path_join project_dir (py "story.json") = Some (File b) →
  loads ops (read_newlines b) = Some (JList [JDict seg1; JDict seg2]) →
  segment_ok ops seg1 → segment_ok ops seg2 →
  nodes w !! path_join project_dir (py "label.json") = None →
  (∀ c, nodes w !! path_join project_dir (py "picture") ≠ Some (File c)) →
  ∃ row1 row2 view,
    format_segment ops (JDict seg1) = inr row1
    ∧ format_segment ops (JDict seg2) = inr row2
    ∧ load_project ops w (Some name) = inr view
    ∧ pv_storyboard view = row1 ++ nl ++ py "---" ++ nl ++ row2
    ∧ pv_characters view = py "No character data found.".
Proof.
  intros Hname project_dir Hstory Hloads Hs1 Hs2 Hlabel Hpic. subst project_dir.
  destruct name as [|c name]; [done|].
  destruct (format_segment_ok ops seg1 Hs1) as [row1 Hr1].
  destruct (format_segment_ok ops seg2 Hs2) as [row2 Hr2].
  destruct (load_keyframes_total w _ Hpic) as [keyframes Hk].
  exists row1, row2. eexists. split_and!; [done | done | | |].
  - unfold load_project.
    cbn [truthy negb from_option]. unfold id. cbv zeta.
    unfold load_document. rewrite Hstory, Hloads, Hlabel.
    unfold format_storyboard. cbn [json_iter bind_err format_rows].
    rewrite Hr1, Hr2. cbn [bind_err]. rewrite Hk. cbn [bind_err]. reflexivity.
  - cbn [pv_storyboard join]. by rewrite <- !app_assoc.
  - reflexivity.
Qed.

Lemma load_project_two_segments_witness :
  ∃ view,
    load_project (sample_builtins sample_story) sample_project (Some (py "demo")) = inr view
    ∧ pv_storyboard view
      = py "**#1** [0.0s - 12.5s] (verse)" ++ nl ++ py "Lyrics: la la" ++ nl
        ++ py "Scene: A street at night." ++ nl
        ++ nl ++ py "---" ++ nl
        ++ py "**#2** [12.5s - 30.0s] (chorus)" ++ nl ++ py "Lyrics: N/A" ++ nl
        ++ py "Scene: N/A" ++ nl
    ∧ pv_characters view = py "No character data found.".
Proof.
  destruct (load_project_two_segments (sample_builtins sample_story) sample_project
              (py "demo") (py "[{}, {}]")
              [ (py "number", JInt 1); (py "start", JInt 0); (py "end", JFloat 125%Z);
                (py "label", JStr (py "verse")); (py "text", JStr (py "la la"));
                (py "story", JStr (py "A street at night.")) ]
              [ (py "number", JInt 2); (py "start", JFloat 125%Z); (py "end", JInt 30);
                (py "label", JStr (py "chorus")) ])
    as (row1 & row2 & view & H1 & H2 & Hv & Hs & Hc).
  - discriminate.
  - vm_compute. reflexivity.
  - reflexivity.
  - split; vm_compute; eauto.
  - split; vm_compute; eauto.
  - vm_compute. reflexivity.
  - intros c. vm_compute. discriminate.
  - exists view. split_and!; [exact Hv | | exact Hc].
    rewrite Hs. vm_compute in H1, H2. injection H1 as <-. injection H2 as <-.
    vm_compute. reflexivity.
Defined.

(** ** The batch of the patcher *)

Lemma apply_replacements_pure filepath reps content :
  ∃ tr, Forall (λ e, ∃ l, e = EvPrint l) tr
        ∧ ∀ s, apply_replacements filepath reps content s
               = (Ok (replace_all reps content), s, tr).
Proof.
  revert content. induction reps as [|[old new] rest IH]; intros content.
  - exists []. split; [constructor | done].
  - cbn [apply_replacements replace_all]. destruct (contains old content); cbn [negb].
    + apply IH.
    + destruct (IH content) as (tr & Hp & Hrun).
      eexists (_ :: tr). split; [constructor; [by eexists | exact Hp]|].
      intros s. erewrite bind_ok by reflexivity. by rewrite Hrun.
Qed.

(** A run of [patch_file] is fixed by where the script lives and by what is
    at the path of its file; it writes that file or nothing. *)
Lemma patch_file_pure filepath reps marker (h : pystr) (n : option node) :
  let path := path_join (path_join h (py "AutoMV_repo")) filepath in
  ∃ r text tr,
    Forall (patcher_event path) tr
    ∧ wrote tr = bool_decide (is_Some text)
    ∧ (is_Some text → ∃ b, n = Some (File b))
    ∧ match n with
      | None => r = Ok false
      | Some Dir => r = Raise IsADirectoryError
      | Some (File _) => r = Ok true
      end
    ∧ ∀ s, here (st_world s) = h → nodes (st_world s) !! path = n →
           patch_file filepath reps marker s = (r, written path text s, tr).
Proof.
  intros path. destruct n as [[b|]|].
  - destruct (negb (bool_decide (marker = [])) && contains marker (read_newlines b)) eqn:Hm.
    { exists (Ok true), None, [EvPrint (py "  [OK] " ++ filepath ++ py " already patched")].
      split_and!; [by repeat constructor | done | by intros [? ?] | done |].
      intros [w bud] Hh Hn. cbn in Hh, Hn. subst h. unfold patch_file. munfold. cbn.
      unfold REPO_DIR. fold path. rewrite Hn. rewrite bool_decide_eq_true_2 by eauto. cbn.
      rewrite Hn. cbn. rewrite Hm. reflexivity. }
    destruct (apply_replacements_pure filepath reps (read_newlines b)) as (tr & Hp & Hrun).
    assert (Forall (patcher_event path) tr) as Hp'.
    { eapply Forall_impl; [exact Hp|]. by intros e [l ->]. }
    assert (wrote tr = false) as Hw.
    { clear -Hp. induction Hp as [|e tr [l ->] _ IH]; [done | exact IH]. }
    destruct (bool_decide (replace_all reps (read_newlines b) = read_newlines b)) eqn:Hsame.
    + exists (Ok true), None,
        (tr ++ [EvPrint (py "  [OK] " ++ filepath ++ py " no changes needed")]).
      split_and!; [apply Forall_app; split; [done | by repeat constructor]
                  | unfold wrote in *; by rewrite existsb_app, Hw
                  | by intros [? ?] | done |].
      intros [w bud] Hh Hn. cbn in Hh, Hn. subst h. unfold patch_file. munfold. cbn.
      unfold REPO_DIR. fold path. rewrite Hn. rewrite bool_decide_eq_true_2 by eauto. cbn.
      rewrite Hn. cbn. rewrite Hm. rewrite Hrun. rewrite Hsame. cbn. reflexivity.
    + exists (Ok true), (Some (replace_all reps (read_newlines b))),
        (tr ++ [EvWrite path (replace_all reps (read_newlines b));
                EvPrint (py "  [PATCHED] " ++ filepath)]).
      split_and!; [apply Forall_app; split; [done | by repeat constructor]
                  | unfold wrote in *; by rewrite existsb_app, Hw
                  | by eauto | done |].
      intros [w bud] Hh Hn. cbn in Hh, Hn. subst h. unfold patch_file. munfold. cbn.
      unfold REPO_DIR. fold path. rewrite Hn. rewrite bool_decide_eq_true_2 by eauto. cbn.
      rewrite Hn. cbn. rewrite Hm. rewrite Hrun. rewrite Hsame. cbn. rewrite Hn. cbn.
      reflexivity.
  - exists (Raise IsADirectoryError), None, [].
    split_and!; [constructor | done | by intros [? ?] | done |].
    intros [w bud] Hh Hn. cbn in Hh, Hn. subst h. unfold patch_file. munfold. cbn.
    unfold REPO_DIR. fold path. rewrite Hn. rewrite bool_decide_eq_true_2 by eauto. cbn.
    rewrite Hn. reflexivity.
  - exists (Ok false), None, [EvPrint (py "  [SKIP] " ++ filepath ++ py " not found")].
    split_and!; [by repeat constructor | done | by intros [? ?] | done |].
    intros [w bud] Hh Hn. cbn in Hh, Hn. subst h. unfold patch_file. munfold. cbn.
    unfold REPO_DIR. fold path. rewrite Hn.
    rewrite bool_decide_eq_false_2 by (intros [? ?]; done). reflexivity.
Qed.

(** The same for each of the five steps. *)
Lemma patch_step_pure (t : target) (h : pystr) (n : option node) :
  let path := path_join (path_join h (py "AutoMV_repo")) (target_file t) in
  ∃ r text tr,
    Forall (patcher_event path) tr
    ∧ wrote tr = bool_decide (is_Some text)
    ∧ (is_Some text → ∃ b, n = Some (File b))
    ∧ match n with
      | None => r = match t with Config => Raise FileNotFoundError | _ => Ok false end
      | Some Dir => r = Raise IsADirectoryError
      | Some (File _) => ∃ ok, r = Ok ok
      end
    ∧ ∀ s, here (st_world s) = h → nodes (st_world s) !! path = n →
           patch_step t s = (r, written path text s, tr).
Proof.
  intros path.
  assert (∀ reps marker,
    ∃ r text tr,
      Forall (patcher_event path) tr
      ∧ wrote tr = bool_decide (is_Some text)
      ∧ (is_Some text → ∃ b, n = Some (File b))
      ∧ match n with
        | None => r = Ok false
        | Some Dir => r = Raise IsADirectoryError
        | Some (File _) => ∃ ok, r = Ok ok
        end
      ∧ ∀ s, here (st_world s) = h → nodes (st_world s) !! path = n →
             patch_file (target_file t) reps marker s = (r, written path text s, tr))
    as Hfile.
  { intros reps marker.
    destruct (patch_file_pure (target_file t) reps marker h n)
      as (r & text & tr & H1 & H2 & H3 & H4 & H5).
    exists r, text, tr. split_and!; try done.
    destruct n as [[b|]|]; [by eexists | done | done]. }
  destruct t; cbn [patch_step].
  - (* config.py *)
    destruct n as [[b|]|].
    + destruct (contains (py "ARK_PROVIDER") (read_newlines b)) eqn:Hm.
      * exists (Ok true), None, [EvPrint (already_patched_line Config)].
        split_and!; [by repeat constructor | done | by intros [? ?] | by eexists |].
        intros [w bud] Hh Hn. cbn in Hh, Hn. subst h. unfold patch_config. munfold. cbn.
        unfold REPO_DIR. change (target_file Config) with (py "config.py") in path.
        fold path. rewrite Hn. cbn. rewrite Hm. reflexivity.
      * destruct (Hfile config_replacements default_marker)
          as (r & text & tr & H1 & H2 & H3 & H4 & H5).
        exists r, text, tr. split_and!; try done.
        intros [w bud] Hh Hn. rewrite <- (H5 _ Hh Hn).
        cbn in Hh, Hn. subst h. unfold patch_config.
        erewrite bind_silent by reflexivity.
        erewrite bind_silent; [|unfold read_text; munfold; cbn; unfold REPO_DIR;
          change (target_file Config) with (py "config.py") in path; fold path;
          rewrite Hn; reflexivity].
        by rewrite Hm.
    + exists (Raise IsADirectoryError), None, [].
      split_and!; [constructor | done | by intros [? ?] | done |].
      intros [w bud] Hh Hn. cbn in Hh, Hn. subst h. unfold patch_config. munfold. cbn.
      unfold REPO_DIR. change (target_file Config) with (py "config.py") in path.
      fold path. rewrite Hn. reflexivity.
    + exists (Raise FileNotFoundError), None, [].
      split_and!; [constructor | done | by intros [? ?] | done |].
      intros [w bud] Hh Hn. cbn in Hh, Hn. subst h. unfold patch_config. munfold. cbn.
      unfold REPO_DIR. change (target_file Config) with (py "config.py") in path.
      fold path. rewrite Hn. reflexivity.
  - apply Hfile.
  - apply Hfile.
  - apply Hfile.
  - (* the lip-sync module *)
    change (target_file LipSync)
      with (py "generate_lip_video/gen_lip_sycn_video_jimeng.py") in path.
    destruct n as [[b|]|].
    + destruct (contains (py "config.HUOSHAN_ACCESS_KEY") (read_newlines b)) eqn:Hm.
      { exists (Ok true), None, [EvPrint (already_patched_line LipSync)].
        split_and!; [by repeat constructor | done | by intros [? ?] | by eexists |].
        intros [w bud] Hh Hn. cbn in Hh, Hn. subst h. unfold patch_lip_sync. munfold. cbn.
        unfold REPO_DIR. fold path. rewrite Hn. rewrite bool_decide_eq_true_2 by eauto. cbn.
        rewrite Hn. cbn. rewrite Hm. reflexivity. }
      destruct (bool_decide (re_sub set_ak_sk_pattern set_ak_sk_replacement (read_newlines b)
                             = read_newlines b)) eqn:Hsame.
      * exists (Ok false), None,
          [EvPrint (py "  [WARN] Could not find set_ak/set_sk pattern in "
                    ++ py "generate_lip_video/gen_lip_sycn_video_jimeng.py")].
        split_and!; [by repeat constructor | done | by intros [? ?] | by eexists |].
        intros [w bud] Hh Hn. cbn in Hh, Hn. subst h. unfold patch_lip_sync. munfold. cbn.
        unfold REPO_DIR. fold path. rewrite Hn. rewrite bool_decide_eq_true_2 by eauto. cbn.
        rewrite Hn. cbn. rewrite Hm. rewrite Hsame. reflexivity.
      * exists (Ok true),
          (Some (re_sub set_ak_sk_pattern set_ak_sk_replacement (read_newlines b))),
          [EvWrite path (re_sub set_ak_sk_pattern set_ak_sk_replacement (read_newlines b));
           EvPrint (py "  [PATCHED] "
                    ++ py "generate_lip_video/gen_lip_sycn_video_jimeng.py")].
        split_and!; [by repeat constructor | done | by eauto | by eexists |].
        intros [w bud] Hh Hn. cbn in Hh, Hn. subst h. unfold patch_lip_sync. munfold. cbn.
        unfold REPO_DIR. fold path. rewrite Hn. rewrite bool_decide_eq_true_2 by eauto. cbn.
        rewrite Hn. cbn. rewrite Hm. rewrite Hsame. cbn. rewrite Hn. reflexivity.
    + exists (Raise IsADirectoryError), None, [].
      split_and!; [constructor | done | by intros [? ?] | done |].
      intros [w bud] Hh Hn. cbn in Hh, Hn. subst h. unfold patch_lip_sync. munfold. cbn.
      unfold REPO_DIR. fold path. rewrite Hn. rewrite bool_decide_eq_true_2 by eauto. cbn.
      rewrite Hn. reflexivity.
    + exists (Ok false), None, [EvPrint (skipped_line LipSync)].
      split_and!; [by repeat constructor | done | by intros [? ?] | done |].
      intros [w bud] Hh Hn. cbn in Hh, Hn. subst h. unfold patch_lip_sync. munfold. cbn.
      unfold REPO_DIR. fold path. rewrite Hn.
      rewrite bool_decide_eq_false_2 by (intros [? ?]; done). reflexivity.
Qed.

Lemma target_path_here w t :
  target_path w t = path_join (path_join (here w) (py "AutoMV_repo")) (target_file t).
Proof. reflexivity. Qed.

Lemma target_path_inj w t t' : target_path w t = target_path w t' → t = t'.
Proof.
  unfold target_path. intros H.
  apply path_join_rel_inj in H; [|by destruct t | by destruct t'].
  destruct t, t'; try done; vm_compute in H; discriminate H.
Qed.

Lemma same_kind_refl n : same_kind n n.
Proof. by destruct n as [[b|]|]. Qed.

Lemma same_kind_trans a b c : same_kind a b → same_kind b c → same_kind a c.
Proof. destruct a as [[?|]|], b as [[?|]|], c as [[?|]|]; done. Qed.

(** What one step does to the state it starts from. *)
Lemma patch_step_effect (t : target) (s : state) :
  let w := st_world s in
  let path := target_path w t in
  ∃ r text tr,
    patch_step t s = (r, written path text s, tr)
    ∧ Forall (patcher_event path) tr
    ∧ wrote tr = bool_decide (is_Some text)
    ∧ (is_Some text → ∃ b, nodes w !! path = Some (File b))
    ∧ match nodes w !! path with
      | None => r = match t with Config => Raise FileNotFoundError | _ => Ok false end
      | Some Dir => r = Raise IsADirectoryError
      | Some (File _) => ∃ ok, r = Ok ok
      end.
Proof.
  intros w path.
  destruct (patch_step_pure t (here w) (nodes w !! path))
    as (r & text & tr & H1 & H2 & H3 & H4 & H5).
  exists r, text, tr. split_and!; try done. by apply H5.
Qed.

Lemma written_same_kind path text s p :
  (is_Some text → ∃ b, nodes (st_world s) !! path = Some (File b)) →
  same_kind (nodes (st_world (written path text s)) !! p) (nodes (st_world s) !! p).
Proof.
  intros Hb. destruct text as [c|]; cbn; [|apply same_kind_refl].
  destruct (Hb (ltac:(eauto))) as [b Hp].
  destruct (decide (p = path)) as [->|Hne].
  - by rewrite lookup_insert_eq, Hp.
  - rewrite lookup_insert_ne by done. apply same_kind_refl.
Qed.

Lemma written_other path text s p :
  p ≠ path → nodes (st_world (written path text s)) !! p = nodes (st_world s) !! p.
Proof. intros Hne. destruct text as [c|]; cbn; [|done]. by rewrite lookup_insert_ne. Qed.

Lemma written_host path text s :
  st_budget (written path text s) = st_budget s
  ∧ here (st_world (written path text s)) = here (st_world s)
  ∧ linesep (st_world (written path text s)) = linesep (st_world s)
  ∧ environ (st_world (written path text s)) = environ (st_world s)
  ∧ dotenv (st_world (written path text s)) = dotenv (st_world s).
Proof. by destruct text. Qed.

(** The steps of a batch, one after the other: they end in a state that
    differs from the first in the target files only, and every step returns
    unless its target is a directory or, for [config.py], is not there. *)
Lemma then_steps_run {A} (ts : list target) (k : M A) (s : state) :
  let w := st_world s in
  ∃ s1 tr,
    st_budget s1 = st_budget s
    ∧ here (st_world s1) = here w
    ∧ linesep (st_world s1) = linesep w
    ∧ environ (st_world s1) = environ w
    ∧ dotenv (st_world s1) = dotenv w
    ∧ (∀ p, same_kind (nodes (st_world s1) !! p) (nodes w !! p))
    ∧ (∀ p, (∀ t, t ∈ ts → p ≠ target_path w t) →
            nodes (st_world s1) !! p = nodes w !! p)
    ∧ Forall (λ e, ∃ t, t ∈ ts ∧ patcher_event (target_path w t) e) tr
    ∧ (then_steps ts k s = ((k s1).1.1, (k s1).1.2, tr ++ (k s1).2)
       ∨ ∃ e t, then_steps ts k s = (Raise e, s1, tr) ∧ t ∈ ts
                ∧ (nodes w !! target_path w t = Some Dir
                   ∨ t = Config ∧ nodes w !! target_path w t = None)).
Proof.
  revert s. induction ts as [|t ts IH]; intros s w.
  - exists s, []. split_and!; try done; try (intros; apply same_kind_refl).
    left. cbn. by destruct (k s) as [[r s2] t2].
  - destruct (patch_step_effect t s) as (r & text & tr & Hrun & Hev & _ & Hfile & Hres).
    fold w in Hrun, Hev, Hfile, Hres.
    set (s0 := written (target_path w t) text s) in *.
    destruct (written_host (target_path w t) text s) as (Hb0 & Hh0 & Hl0 & He0 & Hd0).
    fold s0 in Hb0, Hh0, Hl0, He0, Hd0. fold w in Hh0, Hl0, He0, Hd0.
    assert (∀ t', target_path (st_world s0) t' = target_path w t') as Hpath.
    { intros t'. by rewrite !target_path_here, Hh0. }
    assert (∀ p, same_kind (nodes (st_world s0) !! p) (nodes w !! p)) as Hk0.
    { intros p. by apply written_same_kind. }
    destruct r as [ok|e].
    + destruct (IH s0) as (s1 & tr1 & Hb & Hh & Hl & He & Hd & Hk & Hfr & Hev1 & Hout).
      exists s1, (tr ++ tr1).
      split_and!; try congruence.
      * intros p. eapply same_kind_trans; [apply Hk | apply Hk0].
      * intros p Hp. rewrite Hfr.
        -- apply written_other. apply Hp, list_elem_of_here.
        -- intros t' Hin. rewrite Hpath. by apply Hp, list_elem_of_further.
      * apply Forall_app. split.
        -- eapply Forall_impl; [exact Hev|]. intros e He'. exists t.
           split; [apply list_elem_of_here | done].
        -- eapply Forall_impl; [exact Hev1|]. intros e (t' & Hin & He').
           exists t'. split; [by apply list_elem_of_further | by rewrite <- Hpath].
      * cbn [then_steps foldr]. fold (then_steps ts k).
        erewrite bind_ok by exact Hrun.
        destruct Hout as [Hout|(e & t' & Hout & Hin & Hbad)].
        -- left. rewrite Hout. by rewrite app_assoc.
        -- right. exists e, t'. rewrite Hout.
           split_and!; [done | by apply list_elem_of_further |].
           rewrite Hpath in Hbad. specialize (Hk0 (target_path w t')).
           destruct Hbad as [Hbad|[-> Hbad]]; rewrite Hbad in Hk0.
           ++ left. by destruct (nodes w !! target_path w t') as [[?|]|].
           ++ right. split; [done|]. by destruct (nodes w !! target_path w Config) as [[?|]|].
    + exists s0, tr. split_and!; try done.
      * intros p Hp. apply written_other. apply Hp, list_elem_of_here.
      * eapply Forall_impl; [exact Hev|]. intros e' He'. exists t.
        split; [apply list_elem_of_here | done].
      * right. exists e, t. cbn [then_steps foldr].
        erewrite bind_raise by exact Hrun.
        split_and!; [done | apply list_elem_of_here |].
        destruct (nodes w !! target_path w t) as [[b|]|].
        -- by destruct Hres.
        -- by left.
        -- right. split; [|done]. by destruct t.
Qed.

Lemma main_run (s : state) :
  is_Some (nodes (st_world s) !! REPO_DIR (st_world s)) →
  main s
  = let out := then_steps all_targets (print done_line) s in
    (out.1.1, out.1.2, EvPrint banner_line :: out.2).
Proof.
  intros Hr. unfold main.
  erewrite bind_ok by reflexivity.
  erewrite bind_ok by reflexivity.
  erewrite bind_ok by (unfold path_exists; munfold; cbn; reflexivity).
  rewrite bool_decide_eq_true_2 by done. cbn [negb].
  change (patch_config;; patch_picture;; patch_video_pipeline;; patch_call_gemini;;
          patch_lip_sync;; print (py "Done! BytePlus support patched successfully."))
    with (then_steps all_targets (print done_line)).
  by destruct (then_steps all_targets (print done_line) s) as [[r s2] t2].
Qed.

Lemma main_no_repo (s : state) :
  nodes (st_world s) !! REPO_DIR (st_world s) = None →
  main s
  = (Raise (SystemExit 1), s,
     [EvPrint banner_line;
      EvPrint (py "ERROR: AutoMV repo not found at " ++ REPO_DIR (st_world s))]).
Proof.
  intros Hr. unfold main.
  erewrite bind_ok by reflexivity.
  erewrite bind_ok by reflexivity.
  erewrite bind_ok by (unfold path_exists; munfold; cbn; reflexivity).
  rewrite Hr. rewrite bool_decide_eq_false_2 by (intros [? ?]; done). cbn [negb].
  erewrite bind_ok by reflexivity. by destruct s.
Qed.

(** X1: when the repository directory is not there, [main] prints the
    banner and the error line, raises [SystemExit(1)] and leaves the host as
    it is. *)
Theorem main_without_repo_exits (s : state) :
  nodes (st_world s) !! REPO_DIR (st_world s) = None →
  main s
  = (Raise (SystemExit 1), s,
     [EvPrint (py "Applying BytePlus patches to AutoMV repo...");
      EvPrint (py "ERROR: AutoMV repo not found at " ++ REPO_DIR (st_world s))]).
Proof. apply main_no_repo. Qed.

Lemma main_without_repo_exits_witness :
  main (start sample_bare_host)
  = (Raise (SystemExit 1), start sample_bare_host,
     [EvPrint (py "Applying BytePlus patches to AutoMV repo...");
      EvPrint (py "ERROR: AutoMV repo not found at /app/AutoMV_repo")]).
Proof.
  apply (main_without_repo_exits (start sample_bare_host)). vm_compute. reflexivity.
Defined.

(** X2: whatever the repository holds, [main] leaves the host as it is but
    for the content of its five target files: it creates nothing, removes
    nothing, and its events are prints and writes of target files. *)
Theorem main_changes_targets_only (s : state) :
  let w := st_world s in
  let out := main s in
  let w' := st_world out.1.2 in
  here w' = here w ∧ linesep w' = linesep w ∧ environ w' = environ w ∧ dotenv w' = dotenv w
  ∧ (∀ p, same_kind (nodes w' !! p) (nodes w !! p))
  ∧ (∀ p, (∀ t, p ≠ target_path w t) → nodes w' !! p = nodes w !! p)
  ∧ Forall (λ e, match e with
                 | EvPrint _ => True
                 | EvWrite q _ => ∃ t, q = target_path w t
                 | _ => False
                 end) out.2.
Proof.
  intros w out w'. subst out w'.
  destruct (nodes w !! REPO_DIR w) as [n|] eqn:Hr.
  - rewrite main_run by (exists n; exact Hr). cbn zeta. cbn [fst snd].
    destruct (then_steps_run all_targets (print done_line) s)
      as (s1 & tr & _ & Hh & Hl & He & Hd & Hk & Hfr & Hev & Hout).
    fold w in Hh, Hl, He, Hd, Hk, Hfr, Hev, Hout.
    assert (Forall (λ e, match e with
                         | EvPrint _ => True
                         | EvWrite q _ => ∃ t, q = target_path w t
                         | _ => False
                         end) tr) as Hev'.
    { eapply Forall_impl; [exact Hev|]. intros e (t & _ & He').
      destruct e; try done. exists t. exact He'. }
    destruct Hout as [->|(e & t & -> & _)]; cbn [fst snd print emit].
    + split_and!; try done.
      * intros p Hp. apply Hfr. intros t _. apply Hp.
      * constructor; [done|]. apply Forall_app. split; [done | by repeat constructor].
    + split_and!; try done.
      * intros p Hp. apply Hfr. intros t' _. apply Hp.
      * by constructor.
  - rewrite main_no_repo by exact Hr. cbn [fst snd].
    split_and!; try done; [intros; apply same_kind_refl | by repeat constructor].
Qed.

Lemma main_changes_targets_only_witness :
  let out := main (start sample_fresh_repo) in
  wrote out.2 = true
  ∧ nodes (st_world out.1.2) !! py "/app/AutoMV_repo"
    = nodes sample_fresh_repo !! py "/app/AutoMV_repo".
Proof.
  intros out. split; [vm_compute; reflexivity|].
  apply (main_changes_targets_only (start sample_fresh_repo)).
  intros t. destruct t; vm_compute; discriminate.
Defined.



(** ** The batch run again *)

Lemma then_steps_split {A} (ts : list target) (k : M A) (s : state) :
  then_steps ts k s
  = match then_steps ts (mret ()) s with
    | (Ok _, s1, tr) => ((k s1).1.1, (k s1).1.2, tr ++ (k s1).2)
    | (Raise e, s1, tr) => (Raise e, s1, tr)
    end.
Proof.
  revert s. induction ts as [|t ts IH]; intros s.
  - cbn. by destruct (k s) as [[r s2] t2].
  - cbn [then_steps foldr]. fold (then_steps ts k). fold (then_steps ts (mret ())).
    unfold mbind, M_bind. destruct (patch_step t s) as [[[ok|e] s0] tr0]; [|done].
    rewrite IH. destruct (then_steps ts (mret ()) s0) as [[[[]|e] s1] tr1]; [|done].
    cbn [fst snd]. by rewrite app_assoc.
Qed.

Lemma warned_app t1 t2 : warned (t1 ++ t2) = false → warned t1 = false ∧ warned t2 = false.
Proof. unfold warned. rewrite existsb_app. by intros [? ?]%orb_false_iff. Qed.

Lemma wrote_app t1 t2 : wrote (t1 ++ t2) = wrote t1 || wrote t2.
Proof. apply existsb_app. Qed.

(** After steps on distinct targets that all returned and warned about
    nothing, the same steps leave any state alone that has the targets as
    those steps left them. *)
Lemma steps_rerun (ts : list target) :
  NoDup ts →
  ∀ s s1 tr,
    then_steps ts (mret ()) s = (Ok (), s1, tr) → warned tr = false →
    ∀ s', here (st_world s') = here (st_world s) →
          (∀ t, t ∈ ts → nodes (st_world s') !! target_path (st_world s) t
                         = nodes (st_world s1) !! target_path (st_world s) t) →
          ∃ tr', then_steps ts (mret ()) s' = (Ok (), s', tr') ∧ wrote tr' = false.
Proof.
  induction 1 as [|t ts Hnin Hnd IH]; intros s s1 tr Hrun Hq s' Hh Hsame.
  - by exists [].
  - cbn [then_steps foldr] in *. fold (then_steps ts (mret () : M unit)) in *.
    destruct (patch_step_pure t (here (st_world s))
                (nodes (st_world s) !! target_path (st_world s) t))
      as (r & text & tr0 & Hev & Hw & Hfile & Hres & Hpure).
    rewrite <- target_path_here in Hpure.
    pose proof (Hpure s eq_refl eq_refl) as Hstep.
    set (path := target_path (st_world s) t) in *.
    set (s0 := written path text s) in *.
    destruct (written_host path text s) as (_ & Hh0 & _). fold s0 in Hh0.
    assert (∀ t', target_path (st_world s0) t' = target_path (st_world s) t') as Hpath0.
    { intros t'. by rewrite !target_path_here, Hh0. }
    assert (∀ t', target_path (st_world s') t' = target_path (st_world s) t') as Hpath'.
    { intros t'. by rewrite !target_path_here, Hh. }
    revert Hrun. unfold mbind, M_bind. rewrite Hstep.
    destruct r as [ok|e]; [|done].
    destruct (then_steps ts (mret ()) s0) as [[r1 s1'] tr1] eqn:Hrest.
    intros [= -> -> <-].
    apply warned_app in Hq as [Hq0 Hq1].
    (* the target of [t] is in [s'] as the step left it *)
    assert (nodes (st_world s1) !! path = nodes (st_world s0) !! path) as Hkeep.
    { destruct (then_steps_run ts (mret () : M unit) s0)
        as (s2 & tr2 & _ & _ & _ & _ & _ & _ & Hfr & _ & Hout).
      destruct Hout as [Hout|(e & t' & Hout & _)]; rewrite Hrest in Hout; [|done].
      cbn in Hout. injection Hout as <- _. apply Hfr.
      intros t' Hin Heq. rewrite Hpath0 in Heq. apply target_path_inj in Heq. by subst t'. }
    assert (nodes (st_world s') !! path = nodes (st_world s0) !! path) as Hnode.
    { rewrite <- Hkeep. apply Hsame, list_elem_of_here. }
    assert (∃ ok' tr0', patch_step t s' = (Ok ok', s', tr0') ∧ wrote tr0' = false)
      as (ok' & tr0' & Hstep' & Hw0').
    { destruct text as [c|].
      - (* the step wrote: its marker is in the file *)
        pose proof (patch_step_outcome t s) as Hout. cbv zeta in Hout.
        rewrite Hstep in Hout. cbn [fst snd] in Hout.
        destruct (Hout Hq0) as [[_ Hnw]|(b' & Hb' & Hm & _)].
        { rewrite Hw in Hnw. by rewrite bool_decide_eq_true_2 in Hnw by eauto. }
        fold path in Hb'. rewrite <- Hnode in Hb'.
        destruct s' as [w' bud']. cbn [st_world] in *.
        exists true, [EvPrint (already_patched_line t)]. split; [|reflexivity].
        apply (patch_step_marker t w' b'); [|done].
        by rewrite (Hpath' t).
      - (* the step wrote nothing: it does the same again *)
        exists ok, tr0. split; [|by rewrite Hw].
        rewrite (Hpure s' Hh); [done|]. by rewrite Hnode. }
    destruct (IH s0 s1 tr1 Hrest Hq1 s') as (tr' & Hrun' & Hw').
    { by rewrite Hh0. }
    { intros t' Hin. rewrite !Hpath0. apply Hsame. by apply list_elem_of_further. }
    exists (tr0' ++ tr'). rewrite Hstep', Hrun'. split; [done|].
    by rewrite wrote_app, Hw0', Hw'.
Qed.

Lemma all_targets_NoDup : NoDup all_targets.
Proof.
  unfold all_targets. repeat (apply NoDup_cons; split); [..|apply NoDup_nil_2];
    rewrite ?elem_of_cons, elem_of_nil; intros ?; intuition discriminate.
Qed.

(** X4: after a run of [main] that returned and printed no "[WARN]" line, a
    second run returns too, writes nothing and leaves the state as the first
    run left it. *)
Theorem main_rerun_changes_nothing (s : state) :
  let first := main s in
  first.1.1 = Ok () → warned first.2 = false →
  let second := main first.1.2 in
  second.1.1 = Ok () ∧ second.1.2 = first.1.2 ∧ wrote second.2 = false.
Proof.
  intros first Hok Hq second. subst first second.
  destruct (nodes (st_world s) !! REPO_DIR (st_world s)) as [n|] eqn:Hr.
  2:{ rewrite main_no_repo in Hok by exact Hr. done. }
  assert (is_Some (nodes (st_world s) !! REPO_DIR (st_world s))) as Hrepo by eauto.
  revert Hok Hq. rewrite (main_run s Hrepo). cbn zeta. cbn [fst snd].
  rewrite then_steps_split.
  destruct (then_steps all_targets (mret ()) s) as [[[[]|e] s1] tr] eqn:Hrun; [|done].
  cbn [fst snd print emit]. intros _ Hq.
  change (warned ([EvPrint banner_line] ++ tr ++ [EvPrint done_line]) = false) in Hq.
  apply warned_app in Hq as [_ Hq]. apply warned_app in Hq as [Hq _].
  destruct (then_steps_run all_targets (mret () : M unit) s)
    as (s2 & tr2 & _ & Hh & _ & _ & _ & Hk & _ & _ & Hout).
  destruct Hout as [Hout|(e & t' & Hout & _)]; rewrite Hrun in Hout; [|done].
  cbn in Hout. injection Hout as <- _.
  assert (is_Some (nodes (st_world s1) !! REPO_DIR (st_world s1))) as Hrepo1.
  { unfold REPO_DIR. rewrite Hh. fold (REPO_DIR (st_world s)).
    specialize (Hk (REPO_DIR (st_world s))). rewrite Hr in Hk.
    destruct (nodes (st_world s1) !! REPO_DIR (st_world s)) as [?|]; [eauto|].
    by destruct n. }
  rewrite (main_run s1 Hrepo1). cbn zeta. cbn [fst snd].
  rewrite then_steps_split.
  destruct (steps_rerun all_targets all_targets_NoDup s s1 tr Hrun Hq s1 Hh)
    as (tr' & -> & Hw'); [done|].
  cbn [fst snd print emit]. split_and!; [done | done |].
  change (wrote ([EvPrint banner_line] ++ tr' ++ [EvPrint done_line]) = false).
  by rewrite !wrote_app, Hw'.
Qed.

Lemma main_rerun_changes_nothing_witness :
  let first := main (start sample_fresh_repo) in
  wrote first.2 = true
  ∧ (main first.1.2).1.2 = first.1.2
  ∧ wrote (main first.1.2).2 = false.
Proof.
  intros first. split; [vm_compute; reflexivity|].
  apply (main_rerun_changes_nothing (start sample_fresh_repo)); vm_compute; reflexivity.
Defined.

(** ** The settings file *)











(** Without a settings file and without the directory for it, a call
    raises and does nothing. *)
Lemma save_env_settings_fails provider values s :
  dotenv (st_world s) = None →
  nodes (st_world s) !! AUTOMV_DIR (st_world s) ≠ Some Dir →
  save_env_settings provider values s
  = (Raise (match nodes (st_world s) !! AUTOMV_DIR (st_world s) with
            | Some _ => NotADirectoryError
            | None => FileNotFoundError
            end), s, []).
Proof.
  intros Hd Hdir. unfold save_env_settings.
  erewrite bind_silent by reflexivity. rewrite Hd.
  rewrite bool_decide_eq_true_2 by done.
  destruct (nodes (st_world s) !! AUTOMV_DIR (st_world s)) as [[c|]|]; [|done|];
    by destruct s.
Qed.


(** X14: without a settings file and without the repository directory, in
    which the file would be made, [save_env_settings] raises
    [FileNotFoundError] and leaves the host as it is. *)
Theorem save_without_repository_fails (provider : option pystr)
    (values : list (option pystr)) (s : state) :
  dotenv (st_world s) = None →
  nodes (st_world s) !! AUTOMV_DIR (st_world s) = None →
  save_env_settings provider values s = (Raise FileNotFoundError, s, []).
Proof.
  intros Hd Hdir. rewrite save_env_settings_fails by (done || by rewrite Hdir).
  by rewrite Hdir.
Qed.

Lemma save_without_repository_fails_witness :
  save_env_settings (Some (py "byteplus")) [Some (py "g-key")] (start sample_bare_host)
  = (Raise FileNotFoundError, start sample_bare_host, []).
Proof.
  apply (save_without_repository_fails (Some (py "byteplus")) [Some (py "g-key")]
           (start sample_bare_host)); vm_compute; reflexivity.
Defined.





Lemma truthy_default (x : option pystr) : truthy (Some (default [] x)) = truthy x.
Proof. by destruct x as [[|c v]|]. Qed.

(** X8: the status of [get_env_status] shows the provider and, for each key,
    only whether it is set: two settings files with the same provider and
    the same keys set give the same status, whatever the values of the keys
    are; and the call does nothing to the host. *)
Theorem status_hides_key_values (s s' : state) :
  active_provider (st_world s) = active_provider (st_world s') →
  (∀ k label, (k, label) ∈ API_KEYS →
     env_set (default ∅ (dotenv (st_world s))) k
     = env_set (default ∅ (dotenv (st_world s'))) k) →
  ∃ status,
    get_env_status s = (Ok status, s, []) ∧ get_env_status s' = (Ok status, s', []).
Proof.
  intros Hp Hk. unfold get_env_status.
  rewrite (bind_silent load_env _ s (default ∅ (dotenv (st_world s)))) by reflexivity.
  rewrite (bind_silent load_env _ s' (default ∅ (dotenv (st_world s')))) by reflexivity.
  eexists. split; [reflexivity|]. unfold mret, M_ret. do 3 f_equal.
  unfold active_provider in Hp. rewrite Hp. do 2 f_equal.
  apply list_fmap_ext. intros i [k label] Hi. cbn [fst snd].
  rewrite !truthy_default. change (truthy (?env !! k)) with (env_set env k).
  rewrite (Hk k label); [done|]. by eapply list_elem_of_lookup_2.
Qed.

Lemma status_hides_key_values_witness :
  let w := sample_host (sample_config nl) (py "/tmp/song.mp3") in
  let w' := set_dotenv (Some sample_other_dotenv) w in
  ∃ status,
    get_env_status (start w) = (Ok status, start w, [])
    ∧ get_env_status (start w') = (Ok status, start w', []).
Proof.
  intros w w'.
  apply (status_hides_key_values (start w) (start w')).
  - reflexivity.
  - intros k label Hin. unfold API_KEYS in Hin.
    repeat (apply elem_of_cons in Hin as [[= -> ->]|Hin]; [vm_compute; reflexivity|]).
    by apply elem_of_nil in Hin.
Defined.

(** ** Runs that are turned down *)

Lemma missing_keys w :
  ¬ keys_configured w →
  snd <$> filter (λ kl : pystr * pystr, env_set (default ∅ (dotenv w)) kl.1 = false)
            (take 2 API_KEYS) ≠ [].
Proof.
  intros Hk. cbn [take API_KEYS].
  destruct (env_set (default ∅ (dotenv w)) (py "GEMINI_API_KEY")) eqn:H1.
  - destruct (env_set (default ∅ (dotenv w)) (py "DOUBAO_API_KEY")) eqn:H2.
    + by destruct Hk.
    + rewrite filter_cons_False by (cbn [fst]; rewrite H1; done).
      by rewrite filter_cons_True by (cbn [fst]; rewrite H2; done).
  - by rewrite filter_cons_True by (cbn [fst]; rewrite H1; done).
Qed.

Lemma run_single_yield (m : M unit) x w budget :
  budget ≠ Some 0%nat →
  (∀ s, st_world s = w → m s = yield x s) →
  st_world (run m w budget).1.2 = w
  ∧ (run m w budget).2 = [EvYield x]
  ∧ (budget = None → (run m w budget).1.1 = Ok ()).
Proof.
  intros Hb Hm. unfold run. destruct budget as [[|n]|]; [done| |]; rewrite Hm by done.
  - pose proof (yield_world x (State w (Some (S n)))) as Hw.
    pose proof (yield_trace x (State w (Some (S n)))) as Ht.
    destruct (yield x _) as [[r s1] t1]. by cbn in *.
  - done.
Qed.

(** X9: a run without an uploaded file, or on a host where a required key
    is not set, yields one line that starts with "Error: " and does nothing
    else: the host is as it was. *)
Theorem rejected_run_has_no_effect (st1 st2 : child) (audio_file music_name : option pystr)
    (lip_sync resolution : pystr) (w : world) (budget : option nat) :
  truthy audio_file = false ∨ ¬ keys_configured w →
  budget ≠ Some 0%nat →
  let out :=
    run (generate_music_video st1 st2 audio_file music_name lip_sync resolution) w budget in
  st_world out.1.2 = w
  ∧ (∃ msg, out.2 = [EvYield msg] ∧ startswith (py "Error: ") msg = true)
  ∧ (budget = None → out.1.1 = Ok ()).
Proof.
  intros Hbad Hb out. subst out.
  destruct (truthy audio_file) eqn:Ha.
  - destruct Hbad as [|Hk]; [done|].
    set (msg := py "Error: Required API keys not configured: "
                ++ join (py ", ")
                     (snd <$> filter (λ kl : pystr * pystr,
                                        env_set (default ∅ (dotenv w)) kl.1 = false)
                                (take 2 API_KEYS))
                ++ nl ++ py "Please go to the Settings tab.").
    destruct (run_single_yield
                (generate_music_video st1 st2 audio_file music_name lip_sync resolution)
                msg w budget Hb) as (Hw & Ht & Hr).
    2:{ split_and!; [done | by exists msg | done]. }
    intros s Hs. unfold generate_music_video. rewrite Ha. cbn [negb].
    rewrite bool_decide_eq_false_2 by apply sanitized_name_nonempty.
    erewrite bind_silent by reflexivity. cbv zeta. rewrite Hs.
    by rewrite bool_decide_eq_false_2 by (by apply missing_keys).
  - destruct (run_single_yield
                (generate_music_video st1 st2 audio_file music_name lip_sync resolution)
                (py "Error: Please upload a music file.") w budget Hb) as (Hw & Ht & Hr).
    2:{ split_and!; [done | by eexists | done]. }
    intros s _. unfold generate_music_video. by rewrite Ha.
Qed.

Lemma rejected_run_has_no_effect_witness :
  let w := sample_bare_host in
  let out :=
    run (generate_music_video (sample_stage 0) (sample_stage 0) (Some (py "/tmp/song.mp3"))
           (Some (py "demo")) (py "None") (py "480p")) w None in
  st_world out.1.2 = w
  ∧ ∃ msg, out.2 = [EvYield msg] ∧ startswith (py "Error: ") msg = true.
Proof.
  intros w out.
  destruct (rejected_run_has_no_effect (sample_stage 0) (sample_stage 0)
              (Some (py "/tmp/song.mp3")) (Some (py "demo")) (py "None") (py "480p") w None)
    as (Hw & Hmsg & _).
  - right. intros [H _]. vm_compute in H. discriminate H.
  - discriminate.
  - split; [exact Hw | exact Hmsg].
Defined.

(** ** The events of a run, one by one *)

Section exact_logic.
Context (I : world → Prop) (E : event → Prop) (w0 : world).
Hypothesis I_nodes : ∀ w f, I w → I (set_nodes f w).
Hypothesis I_host : ∀ w, I w →
  here w = here w0 ∧ environ w = environ w0 ∧ dotenv w = dotenv w0.

Lemma I_nodes_write w p c :
  I w → nodes w !! p ≠ Some Dir → I (set_nodes (insert p (File c)) w).
Proof. intros Hw _. by apply I_nodes. Qed.

Lemma I_nodes_delete w p :
  I w → nodes w !! p ≠ Some Dir → I (set_nodes (delete p) w).
Proof. intros Hw _. by apply I_nodes. Qed.

Lemma I_host_here w : I w → here w = here w0.
Proof. intros Hw. by destruct (I_host w Hw). Qed.

Lemma sat_copy2_exact src dst :
  E (EvCopy src dst) → E (EvCopy src (path_join dst (basename src))) →
  sat I E (copy2 src dst) (λ _, True).
Proof.
  intros He1 He2. unfold copy2.
  eapply sat_bind; [apply sat_get_world|]. intros w _. cbv zeta.
  set (target := match nodes w !! dst with Some Dir => _ | _ => _ end).
  assert (E (EvCopy src target)) as He.
  { subst target. by destruct (nodes w !! dst) as [[c|]|]. }
  destruct (bool_decide _); [apply sat_raise|].
  destruct (nodes w !! src) as [[b|]|]; [| apply sat_raise | apply sat_raise].
  assert (sat I E (emit (EvCopy src target);;
                   modify_world (set_nodes (insert target (File b)))) (λ _, True)) as Hok.
  { eapply sat_bind; [by apply sat_emit|]. intros _ _.
    apply sat_modify_world. intros w1. apply I_nodes. }
  destruct (nodes w !! target) as [[c|]|]; [done | apply sat_raise | done].
Qed.

(** The stages: the driver is removed only after both children have
    returned zero. *)
Lemma sat_stages_exact st1 st2 run_env project_dir music_name lip_sync resolution log :
  (∀ y, E (EvYield (log ++ y))) →
  E (EvSpawn stage1_argv (AUTOMV_DIR w0) run_env) →
  (returncode st1 = 0%Z →
   E (EvWrite (gen_script_path w0) (_build_gen_script music_name lip_sync resolution))
   ∧ E (EvSpawn stage2_argv (AUTOMV_DIR w0) run_env)
   ∧ (returncode st2 = 0%Z → E (EvRemove (gen_script_path w0)))) →
  sat I E
    (stages st1 st2 run_env project_dir music_name lip_sync resolution log)
    (λ _, True).
Proof.
  intros Hy Hs1 Hs2. unfold stages.
  eapply sat_bind; [apply sat_get_world|]. intros w Hw.
  rewrite (I_gen_script_path I w0 I_host_here w Hw), (I_automv_dir I w0 I_host_here w Hw).
  eapply sat_bind; [apply sat_yield; rewrite <- ?app_assoc; apply Hy|]. intros _ _.
  eapply sat_bind; [by apply sat_popen|]. intros _ _.
  eapply sat_bind.
  { apply sat_stream_child; [apply I_nodes_write | apply I_nodes_delete |].
    intros y. rewrite <- ?app_assoc. apply Hy. }
  intros log1 [y1 ->].
  eapply sat_bind; [apply sat_wait; [apply I_nodes_write | apply I_nodes_delete]|].
  intros code ->.
  destruct (bool_decide (returncode st1 = 0%Z)) eqn:Hrc; cbn [negb].
  2:{ apply sat_yield. rewrite <- ?app_assoc. apply Hy. }
  apply bool_decide_eq_true_1 in Hrc. destruct (Hs2 Hrc) as (Hw2 & Hsp2 & Hrm).
  eapply sat_bind; [apply sat_yield; rewrite <- ?app_assoc; apply Hy|]. intros _ _.
  eapply sat_bind; [apply sat_write_text; [apply I_nodes_write | done]|]. intros _ _.
  eapply sat_bind; [apply sat_yield; rewrite <- ?app_assoc; apply Hy|]. intros _ _.
  eapply sat_bind; [by apply sat_popen|]. intros _ _.
  eapply sat_bind.
  { apply sat_stream_child; [apply I_nodes_write | apply I_nodes_delete |].
    intros y. rewrite <- ?app_assoc. apply Hy. }
  intros log2 [y2 ->].
  eapply sat_bind; [apply sat_wait; [apply I_nodes_write | apply I_nodes_delete]|].
  intros code2 ->.
  destruct (bool_decide (returncode st2 = 0%Z)) eqn:Hrc2; cbn [negb].
  2:{ apply sat_yield. rewrite <- ?app_assoc. apply Hy. }
  apply bool_decide_eq_true_1 in Hrc2.
  eapply sat_bind; [by apply sat_path_exists|]. intros found _.
  eapply sat_bind.
  { destruct found; [apply sat_remove; [apply I_nodes_delete | by apply Hrm]
                    | by apply sat_ret]. }
  intros _ _.
  eapply sat_bind; [by apply sat_path_exists|]. intros found2 _.
  apply sat_yield. destruct found2; rewrite <- ?app_assoc; apply Hy.
Qed.

Lemma sat_patched_scope_exact st1 st2 run_env project_dir music_name lip_sync resolution log :
  (∀ y, E (EvYield (log ++ y))) →
  (∀ text, E (EvWrite (config_path w0) text)) →
  E (EvSpawn stage1_argv (AUTOMV_DIR w0) run_env) →
  (returncode st1 = 0%Z →
   E (EvWrite (gen_script_path w0) (_build_gen_script music_name lip_sync resolution))
   ∧ E (EvSpawn stage2_argv (AUTOMV_DIR w0) run_env)
   ∧ (returncode st2 = 0%Z → E (EvRemove (gen_script_path w0)))) →
  sat I E
    (patched_scope st1 st2 run_env project_dir music_name lip_sync resolution log)
    (λ _, True).
Proof.
  intros Hy Hc Hs1 Hs2. unfold patched_scope.
  eapply sat_bind; [apply sat_get_world|]. intros w Hw.
  rewrite (I_config_path I w0 I_host_here w Hw).
  eapply sat_bind with (Q := λ _, True).
  { unfold read_text. eapply sat_bind; [apply sat_get_world|]. intros w1 _.
    destruct (nodes w1 !! config_path w0) as [[c|]|];
      [by apply sat_ret | apply sat_raise | apply sat_raise]. }
  intros content _.
  eapply sat_bind; [apply sat_write_text; [apply I_nodes_write | done]|]. intros _ _.
  eapply sat_try_finally;
    [by apply sat_stages_exact | apply sat_write_text; [apply I_nodes_write | done]].
Qed.

(** Lines 123 to 233 on a host that is [w0] but for its files. *)
Lemma sat_prepare_exact st1 st2 audio_file music_name provider lip_sync resolution :
  let project_dir := path_join (RESULT_DIR w0) music_name in
  let dest_audio := path_join project_dir (music_name ++ py ".mp3") in
  let run_env := <[py "PYTHONPATH" := AUTOMV_DIR w0]> (default ∅ (dotenv w0) ∪ environ w0) in
  E (EvMakedirs project_dir) →
  E (EvCopy audio_file dest_audio) →
  E (EvCopy audio_file (path_join dest_audio (basename audio_file))) →
  E (EvYield unsupported_audio_error) →
  (∀ y, E (EvYield (py "=== AutoMV Pipeline ===" ++ y))) →
  (∀ text, E (EvWrite (config_path w0) text)) →
  E (EvSpawn stage1_argv (AUTOMV_DIR w0) run_env) →
  (returncode st1 = 0%Z →
   E (EvWrite (gen_script_path w0) (_build_gen_script music_name lip_sync resolution))
   ∧ E (EvSpawn stage2_argv (AUTOMV_DIR w0) run_env)
   ∧ (returncode st2 = 0%Z → E (EvRemove (gen_script_path w0)))) →
  sat I E
    (prepare_and_run st1 st2 (default ∅ (dotenv w0)) audio_file music_name provider
       lip_sync resolution)
    (λ _, True).
Proof.
  intros project_dir dest_audio run_env Hmk Hcp1 Hcp2 Hun Hy Hc Hs1 Hs2.
  unfold prepare_and_run.
  eapply sat_bind; [apply sat_get_world|]. intros w Hw.
  destruct (I_host w Hw) as (Hh & He & Hd).
  assert (RESULT_DIR w = RESULT_DIR w0) as -> by (unfold RESULT_DIR, AUTOMV_DIR; by rewrite Hh).
  assert (AUTOMV_DIR w = AUTOMV_DIR w0) as -> by (unfold AUTOMV_DIR; by rewrite Hh).
  rewrite He. fold project_dir. fold dest_audio. fold run_env.
  eapply sat_bind; [by apply (sat_makedirs I E I_nodes)|]. intros _ _.
  destruct (negb _); [by apply sat_yield|].
  eapply sat_bind; [by apply sat_copy2_exact|]. intros _ _.
  eapply sat_bind; [apply sat_yield; rewrite <- ?app_assoc; apply Hy|]. intros _ _.
  apply sat_patched_scope_exact; try done.
  intros y. rewrite <- ?app_assoc. apply Hy.
Qed.

Lemma sat_generate_exact st1 st2 audio_file music_name lip_sync resolution :
  let name := sanitize_music_name (py_or music_name (py "untitled")) in
  let audio := default [] audio_file in
  let project_dir := path_join (RESULT_DIR w0) name in
  let dest_audio := path_join project_dir (name ++ py ".mp3") in
  let run_env := <[py "PYTHONPATH" := AUTOMV_DIR w0]> (default ∅ (dotenv w0) ∪ environ w0) in
  let mode :=
    if bool_decide (active_provider w0 = py "byteplus")
       && negb (bool_decide (lip_sync = py "None"))
    then py "None" else lip_sync in
  E (EvYield (py "Error: Please upload a music file.")) →
  (∀ y, E (EvYield (py "Error: Required API keys not configured: " ++ y))) →
  E (EvYield lip_sync_warning) →
  E (EvMakedirs project_dir) →
  E (EvCopy audio dest_audio) →
  E (EvCopy audio (path_join dest_audio (basename audio))) →
  E (EvYield unsupported_audio_error) →
  (∀ y, E (EvYield (py "=== AutoMV Pipeline ===" ++ y))) →
  (∀ text, E (EvWrite (config_path w0) text)) →
  E (EvSpawn stage1_argv (AUTOMV_DIR w0) run_env) →
  (returncode st1 = 0%Z →
   E (EvWrite (gen_script_path w0) (_build_gen_script name mode resolution))
   ∧ E (EvSpawn stage2_argv (AUTOMV_DIR w0) run_env)
   ∧ (returncode st2 = 0%Z → E (EvRemove (gen_script_path w0)))) →
  sat I E (generate_music_video st1 st2 audio_file music_name lip_sync resolution)
    (λ _, True).
Proof.
  intros name audio project_dir dest_audio run_env mode
    Hup Hkeys Hwarn Hmk Hcp1 Hcp2 Hun Hy Hc Hs1 Hs2.
  unfold generate_music_video.
  destruct (negb (truthy audio_file)); [by apply sat_yield|].
  rewrite bool_decide_eq_false_2 by apply sanitized_name_nonempty.
  eapply sat_bind; [apply sat_load_env|]. intros env (w & Hw & ->).
  destruct (I_host w Hw) as (_ & _ & ->). cbv zeta.
  destruct (negb (bool_decide (_ = []))).
  { apply sat_yield. rewrite <- ?app_assoc. apply Hkeys. }
  fold (active_provider w0). fold name. fold audio. subst mode.
  destruct (bool_decide (active_provider w0 = py "byteplus")
            && negb (bool_decide (lip_sync = py "None"))).
  - eapply sat_bind; [by apply sat_yield|]. intros _ _.
    by apply sat_prepare_exact.
  - by apply sat_prepare_exact.
Qed.
End exact_logic.

(** Every event of a run is one of those of [run_event]. *)
Lemma run_events_listed st1 st2 audio_file music_name lip_sync resolution w budget :
  Forall (run_event w (default [] audio_file)
            (sanitize_music_name (py_or music_name (py "untitled"))))
    (run (generate_music_video st1 st2 audio_file music_name lip_sync resolution)
       w budget).2.
Proof.
  apply run_events. intros s Hs.
  set (I := λ w' : world, here w' = here w ∧ environ w' = environ w ∧ dotenv w' = dotenv w).
  assert (sat I (run_event w (default [] audio_file)
                   (sanitize_music_name (py_or music_name (py "untitled"))))
            (generate_music_video st1 st2 audio_file music_name lip_sync resolution)
            (λ _, True)) as Hsat.
  { apply (sat_generate_exact I _ w); try done; cbn; unfold child_env; intuition. }
  destruct (Hsat s) as (_ & He & _); [by rewrite Hs | done].
Qed.



(** X11: both children are launched in the repository directory, with the
    repository as [PYTHONPATH]; for every other variable the child sees the
    value of the settings file if the file binds it, and the value of the
    process environment otherwise. *)
Theorem children_get_settings (st1 st2 : child) (audio_file music_name : option pystr)
    (lip_sync resolution : pystr) (w : world) (budget : option nat)
    (argv : list pystr) (cwd : pystr) (env : gmap pystr pystr) :
  EvSpawn argv cwd env
  ∈ (run (generate_music_video st1 st2 audio_file music_name lip_sync resolution)
       w budget).2 →
  (argv = stage1_argv ∨ argv = stage2_argv)
  ∧ cwd = AUTOMV_DIR w
  ∧ env !! py "PYTHONPATH" = Some (AUTOMV_DIR w)
  ∧ ∀ k, k ≠ py "PYTHONPATH" →
         env !! k = match saved w k with
                    | Some v => Some v
                    | None => environ w !! k
                    end.
Proof.
  intros Hin.
  pose proof (run_events_listed st1 st2 audio_file music_name lip_sync resolution w budget)
    as Hall.
  rewrite Forall_forall in Hall. destruct (Hall _ Hin) as (Hargv & -> & ->).
  split_and!; [done | done | apply lookup_insert_eq |].
  intros k Hk. unfold child_env. rewrite lookup_insert_ne by done.
  unfold saved. destruct (default ∅ (dotenv w) !! k) as [v|] eqn:Hv.
  - by apply lookup_union_Some_l.
  - by apply lookup_union_r.
Qed.

Lemma children_get_settings_witness :
  let t := (run (generate_music_video (sample_stage 0) (sample_stage 0)
                   (Some (py "/tmp/song.wav")) (Some (py "demo")) (py "None") (py "480p"))
              sample_env_host None).2 in
  ∃ env, t !! 10%nat = Some (EvSpawn stage2_argv (py "/app/AutoMV_repo") env)
         ∧ env !! py "PYTHONPATH" = Some (py "/app/AutoMV_repo")
         ∧ env !! py "GEMINI_API_KEY" = Some (py "g-key")
         ∧ env !! py "PATH" = Some (py "/usr/bin").
Proof.
  intros t. eexists. split; [vm_compute; reflexivity|].
  match goal with
  | |- ?env !! _ = _ ∧ _ =>
    assert (EvSpawn stage2_argv (py "/app/AutoMV_repo") env ∈ t) as Hin
      by (apply (list_elem_of_lookup_2 t 10); vm_compute; reflexivity)
  end.
  destruct (children_get_settings _ _ _ _ _ _ _ _ _ _ _ Hin) as (_ & _ & Hpp & Hk).
  split_and!; [exact Hpp | |].
  - rewrite Hk by (vm_compute; discriminate). reflexivity.
  - rewrite Hk by (vm_compute; discriminate). reflexivity.
Defined.
